(** * SIGITM pipeline: retry orchestration and stage adapters

    A shallow embedding of [main_base_sigitm_lp_fsp.py] (class
    [MainOrchestrator]) and of the file handling part of
    [src/process_data_sigitm.py] (class [ExcelFileHandler]).

    Python code is embedded in a small state-and-exception monad [Py].  The
    state is the observable world: a logical clock, the file system and the
    trace of log records and collaborator calls.  Collaborators whose code is
    not part of the sources (VPN manager, scraper, pandas, PostgreSQL handler)
    are parameters: a record gives, for each of their entry points, how long
    the call takes and how it ends: with a value, with an exception (derived
    from [Exception] or not), or with [SystemExit]. *)

From Stdlib Require Import ZArith List String Ascii Bool Lia DecimalString.
Import ListNotations.

Local Open Scope string_scope.
Local Open Scope Z_scope.

(** ** Python values used by the program *)

(** Exceptions.  The classes of the first group derive from [Exception].
    [KeyboardInterrupt], [asyncio.CancelledError] and the [PanicException]
    that a panic of the calamine reader surfaces as derive from
    [BaseException] only, so that an [except Exception] clause lets them
    pass.  [SystemExit], which does not derive from [Exception] either, is
    the [Exit] outcome of a computation. *)
Inductive exn_class :=
| TimeoutError
| ConnectionError
| RuntimeError
| FileNotFoundError
| FileExistsError
| PermissionError
| TypeError
| OtherException
| KeyboardInterrupt
| CancelledError
| PanicException.

Definition is_Exception (k : exn_class) : bool :=
  match k with
  | KeyboardInterrupt | CancelledError | PanicException => false
  | _ => true
  end.

Record exn := mkExn { cls : exn_class; str_e : string }.

(** [pathlib.Path]: the directory part and the final component ([.name]). *)
Record Path := mkPath { parent : string; name : string }.

Definition Path_eqb (p q : Path) : bool :=
  String.eqb (parent p) (parent q) && String.eqb (name p) (name q).

(** [str(path)]. *)
Definition str_path (p : Path) : string := parent p ++ "/" ++ name p.

(** A directory entry with what [stat], [open] and [unlink] see of it.  An
    entry without modification time is one that [stat] does not find: a
    link whose target is missing.  A locked entry is one that the system
    refuses to remove. *)
Record File := mkFile { path : Path; mtime : option Z; locked : bool }.

(** A [pandas.DataFrame], as its rows; [len(df)] is the number of rows. *)
Definition DataFrame := list (list string).

(** [FileProcessingResult] (process_data_sigitm.py, lines 11-15). *)
Record FileProcessingResult := mkResult {
  success : bool;
  message : string;
  dataframe : option DataFrame
}.

(** ** Log records and observable events *)

Inductive level := INFO | WARNING | ERROR | CRITICAL.

(** One constructor per logging call of the sources, with the values that the
    f-string interpolates. *)
Inductive log_message :=
| VpnEstablished (msg : string)
| VpnFailed (msg : string)
| VpnTimeout
| VpnUnexpected (e : exn)
| ExtractionStarting
| TransformFailed (msg : string)
| TransformOk (rows : Z)
| DbConnected
| TableCreated
| LoadDone
| LoadCritical (e : exn)
| PipelineStarting
| AttemptOf (attempt max : nat)
| PipelineDone (readable_time : string)
| AttemptFailed (attempt : nat) (e : exn)
| WaitingRetry (delay : Z)
| DefinitiveFailure
| DirNotFound (d : string)
| DirCreated (d : string)
| NoFileWithPrefix (prefix : string)
| ExcelProcessed
| ProcessingTarget (n : string)
| ProcessRecentError (e : exn)
| FileRemoved (p : option Path)
| RemoveError (e : exn).

(** Entry points of the collaborators. *)
Inductive callee :=
| VPNConnectionManager_init
| connect_with_fallback
| SIGITMAutomation_init
| execute_process_sigitm
| scraper_close
| pd_read_excel (p : Path)
| process_dataframe
| PostgreSQLHandler_enter
| table_exists
| create_table_from_dataframe
| bulk_insert_dataframe
| PostgreSQLHandler_exit.

Inductive event :=
| Log (lv : level) (m : log_message)
| Call (c : callee)
| Mkdir (d : string)
| Unlink (p : Path)
| Sleep (seconds : Z).

(** ** The world and the monad *)

(** How a computation ends: with a value, with an exception, or with
    [SystemExit(status)]. *)
Inductive outcome (A : Type) :=
| Return (a : A)
| Raise (e : exn)
| Exit (status : Z).

Arguments Return {A} a.
Arguments Raise {A} e.
Arguments Exit {A} status.

(** The clock counts milliseconds; [time.perf_counter] reads it in seconds. *)
Definition ticks_per_second : Z := 1000.

(** [denied] lists the directories that the system refuses to create.
    [pathlib_glob] is what [Path(directory).glob(pattern)] yields for the
    patterns that this development does not interpret (see [glob] below). *)
Record World := mkWorld {
  clock : Z;
  dirs : list string;
  files : list File;
  denied : list string;
  pathlib_glob : string -> string -> outcome (list File);
  trace : list event
}.

Definition Py (A : Type) : Type := World -> outcome A * World.

Definition ret {A} (a : A) : Py A := fun w => (Return a, w).

Definition bind {A B} (m : Py A) (k : A -> Py B) : Py B :=
  fun w =>
    match m w with
    | (Return a, w') => k a w'
    | (Raise e, w') => (Raise e, w')
    | (Exit s, w') => (Exit s, w')
    end.

Declare Scope py_scope.
Delimit Scope py_scope with py.
Notation "x <- m ;; k" := (bind m (fun x => k))
  (at level 100, m at next level, right associativity) : py_scope.
Notation "m ;; k" := (bind m (fun _ => k))
  (at level 100, right associativity) : py_scope.
Local Open Scope py_scope.

Definition raise {A} (e : exn) : Py A := fun w => (Raise e, w).

(** [sys.exit(status)]: raises [SystemExit]. *)
Definition sys_exit {A} (status : Z) : Py A := fun w => (Exit status, w).

(** [try: body except Exception as e: handler(e)]: the clause takes the
    exceptions that derive from [Exception]; the others, and [SystemExit],
    pass. *)
Definition try_except {A} (body : Py A) (handler : exn -> Py A) : Py A :=
  fun w =>
    match body w with
    | (Raise e, w') => if is_Exception (cls e) then handler e w' else (Raise e, w')
    | r => r
    end.

(** [try: body finally: cleanup]: the cleanup runs on every way out of the
    body, and what it raises replaces the body's outcome. *)
Definition try_finally {A} (body : Py A) (cleanup : Py unit) : Py A :=
  fun w =>
    let (o, w') := body w in
    match cleanup w' with
    | (Return _, w'') => (o, w'')
    | (Raise e, w'') => (Raise e, w'')
    | (Exit s, w'') => (Exit s, w'')
    end.

Definition emit (ev : event) : Py unit :=
  fun w =>
    (Return tt,
     mkWorld (clock w) (dirs w) (files w) (denied w) (pathlib_glob w) (trace w ++ [ev])%list).

Definition logger (lv : level) (m : log_message) : Py unit := emit (Log lv m).

Definition advance (ms : Z) : Py unit :=
  fun w =>
    (Return tt,
     mkWorld (clock w + ms) (dirs w) (files w) (denied w) (pathlib_glob w) (trace w)).

(** [time.perf_counter()]: the reading of the clock, in ticks; [int_seconds]
    is [int(...)] of a time difference, which truncates to whole seconds. *)
Definition perf_counter : Py Z := fun w => (Return (clock w), w).

Definition int_seconds (ticks : Z) : Z := Z.quot ticks ticks_per_second.

(** [await asyncio.sleep(seconds)]. *)
Definition asyncio_sleep (seconds : Z) : Py unit :=
  emit (Sleep seconds) ;; advance (seconds * ticks_per_second).

(** ** Collaborators *)

(** What a call of a collaborator does: it takes some time, then returns a
    value, raises an exception of any class, or leaves through
    [sys.exit]. *)
Record call (A : Type) := mkCall { takes : Z; gives : outcome A }.
Arguments mkCall {A} takes gives.
Arguments takes {A} c.
Arguments gives {A} c.

Definition returns {A} (a : A) : call A := mkCall 0 (Return a).
Definition raises {A} (e : exn) : call A := mkCall 0 (Raise e).
Definition exits {A} (status : Z) : call A := mkCall 0 (Exit status).

(** The call runs its time and ends the way it ends. *)
Definition deliver {A} (b : call A) : Py A :=
  advance (takes b) ;;
  match gives b with
  | Return a => ret a
  | Raise e => raise e
  | Exit status => sys_exit status
  end.

Definition invoke {A} (c : callee) (b : call A) : Py A :=
  emit (Call c) ;; deliver b.

(** The blocking VPN routine runs in a worker thread and may never finish. *)
Inductive connector :=
| Completes (b : call (bool * string))
| Hangs.

(** [asyncio.wait_for(asyncio.to_thread(f), timeout)].  With a timeout that
    is not positive the task is cancelled before it has started: the worker
    is never called and [TimeoutError] is raised at once.  Otherwise the
    worker is started, and the caller gets what it produces (its value, or
    whatever it raises) if that arrives within the timeout, and
    [TimeoutError] once the timeout has elapsed if not, the worker being
    abandoned. *)
Definition wait_for_to_thread (f : connector) (timeout : Z) : Py (bool * string) :=
  if timeout <=? 0
  then raise (mkExn TimeoutError "")
  else
    emit (Call connect_with_fallback) ;;
    match f with
    | Completes b =>
        if takes b <=? timeout * ticks_per_second
        then deliver b
        else advance (timeout * ticks_per_second) ;;
             raise (mkExn TimeoutError "")
    | Hangs =>
        advance (timeout * ticks_per_second) ;;
        raise (mkExn TimeoutError "")
    end.

(** The behaviour of every collaborator during one attempt of the pipeline. *)
Record Collaborators := mkCollaborators {
  user_downloads_dir : string;
  vpn_init : call unit;
  vpn_connect : connector;
  scraper_init : call unit;
  scraper_execute : call (bool * option Path);
  scraper_closes : call unit;
  read_excel : Path -> call DataFrame;
  pandas_process : DataFrame -> call DataFrame;
  db_enter : call unit;
  db_table_exists : call bool;
  db_create_table : call unit;
  db_bulk_insert : call unit;
  db_exit : call unit
}.

(** ** Formatting the elapsed time *)

(** ["%d" % n]. *)
Definition fmt_d (n : Z) : string := NilZero.string_of_int (Z.to_int n).

Fixpoint zeros (n : nat) : string :=
  match n with
  | O => ""
  | S n' => String "0" (zeros n')
  end.

(** [s.zfill(width)]: zeros go after a leading sign. *)
Definition zfill (width : nat) (s : string) : string :=
  if (width <=? String.length s)%nat then s
  else
    let fill := zeros (width - String.length s) in
    match s with
    | String c rest =>
        if (Ascii.eqb c "+" || Ascii.eqb c "-")%bool
        then String c (fill ++ rest)
        else fill ++ s
    | EmptyString => fill
    end.

(** ["%02d" % n]. *)
Definition fmt_02d (n : Z) : string := zfill 2 (fmt_d n).

(** [str(timedelta(seconds=n))]: the constructor normalises to days and
    seconds of the day by floor division, and [__str__] prints the days only
    when there are some. *)
Definition timedelta_str (n : Z) : string :=
  let days := n / 86400 in
  let seconds := n mod 86400 in
  let mm := seconds / 60 in
  let ss := seconds mod 60 in
  let hh := mm / 60 in
  let mm := mm mod 60 in
  let s := fmt_d hh ++ ":" ++ fmt_02d mm ++ ":" ++ fmt_02d ss in
  if days =? 0 then s
  else fmt_d days ++ " day" ++ (if Z.abs days =? 1 then "" else "s") ++ ", " ++ s.

(** [str(timedelta(seconds=int(total_time))).zfill(8)] (line 116). *)
Definition readable_time (total_time : Z) : string :=
  zfill 8 (timedelta_str (int_seconds total_time)).

(** ** [ExcelFileHandler] (process_data_sigitm.py) *)

Record ExcelFileHandler := mkHandler { directory : string; prefix : string }.

Definition PREFIX : string := "CONSULTA_TLP_PCP_LP_FSP_CS".

(** What [OSError] prints. *)
Definition os_error (k : exn_class) (errno : string) (what : string) (where_ : string)
    : exn :=
  mkExn k ("[Errno " ++ errno ++ "] " ++ what ++ ": '" ++ where_ ++ "'").

Definition has_mtime (f : File) : bool :=
  match mtime f with
  | Some _ => true
  | None => false
  end.

Definition is_dir (d : string) (w : World) : bool := existsb (String.eqb d) (dirs w).

(** Whether some entry, of whatever kind, has this path. *)
Definition is_entry (d : string) (w : World) : bool :=
  existsb (fun f => String.eqb (str_path (path f)) d) (files w).

(** [Path.exists()] follows links: it holds of a directory and of any other
    entry that [stat] finds. *)
Definition path_exists (d : string) (w : World) : bool :=
  is_dir d w || existsb (fun f => String.eqb (str_path (path f)) d && has_mtime f) (files w).

Definition Path_exists (d : string) : Py bool := fun w => (Return (path_exists d w), w).

(** Nothing stands in the way of creating the directory. *)
Definition can_create (d : string) (w : World) : bool :=
  negb (is_entry d w) && negb (existsb (String.eqb d) (denied w)).

(** [mkdir(parents=True, exist_ok=True)]: nothing to do for a directory that
    is there; [FileExistsError] when the path is taken by an entry that is
    not a directory; [PermissionError] when the system refuses.  Of the
    directories that it creates only the last one is recorded: the program
    never asks about the parents. *)
Definition mkdir (d : string) : Py unit :=
  emit (Mkdir d) ;;
  fun w =>
    if is_dir d w then (Return tt, w)
    else if is_entry d w
    then (Raise (os_error FileExistsError "17" "File exists" d), w)
    else if existsb (String.eqb d) (denied w)
    then (Raise (os_error PermissionError "13" "Permission denied" d), w)
    else (Return tt,
          mkWorld (clock w) (d :: dirs w) (files w) (denied w) (pathlib_glob w) (trace w)).

(** [__init__] (lines 64-82). *)
Definition ExcelFileHandler_init (downloads : string) (dir : option string)
    (pfx : string) : Py ExcelFileHandler :=
  let d := match dir with Some d => d | None => downloads end in
  there <- Path_exists d ;;
  (if negb there
   then logger WARNING (DirNotFound d) ;; mkdir d ;; logger INFO (DirCreated d)
   else ret tt) ;;
  ret (mkHandler d pfx).

(** The characters that make a glob pattern more than a literal name: the
    wildcards, the opening bracket and the separators (slash, and backslash,
    character 92). *)
Definition is_magic (c : ascii) : bool :=
  (Ascii.eqb c "*" || Ascii.eqb c "?" || Ascii.eqb c "[" || Ascii.eqb c "/"
   || Ascii.eqb c (ascii_of_nat 92))%bool.

Fixpoint plain (s : string) : bool :=
  match s with
  | EmptyString => true
  | String c s' => negb (is_magic c) && plain s'
  end.

(** The modification time of an entry that [stat] finds. *)
Definition modified (f : File) : Z :=
  match mtime f with
  | Some t => t
  | None => 0
  end.

(** An entry of the directory whose name starts with the prefix. *)
Definition matching (self : ExcelFileHandler) (f : File) : bool :=
  String.eqb (parent (path f)) (directory self)
  && String.prefix (prefix self) (name (path f)).

(** What the pattern [prefix*] selects when the prefix is plain: the entries
    of the directory whose name starts with the prefix, in the order the
    directory lists them; nothing when the directory is not one. *)
Definition candidates (self : ExcelFileHandler) (w : World) : list File :=
  if is_dir (directory self) w then filter (matching self) (files w) else [].

(** [self.directory.glob(f"{self.prefix}*")].  The prefix is part of the
    pattern: when it holds a wildcard, a bracket or a separator, what the
    pattern selects is up to [pathlib] and is left to the world. *)
Definition glob (self : ExcelFileHandler) : Py (list File) :=
  fun w =>
    if plain (prefix self)
    then (Return (candidates self w), w)
    else (pathlib_glob w (directory self) (prefix self ++ "*"), w).

(** [f.stat().st_mtime]. *)
Definition stat_st_mtime (f : File) : Py Z :=
  match mtime f with
  | Some t => ret t
  | None => raise (os_error FileNotFoundError "2" "No such file or directory"
                     (str_path (path f)))
  end.

(** The loop of [max(files, key=lambda f: f.stat().st_mtime)]: the key of
    each entry is computed in turn, and an entry replaces the best one so
    far only when its key is greater. *)
Fixpoint max_by_mtime (best : File) (best_key : Z) (l : list File) : Py File :=
  match l with
  | [] => ret best
  | f :: l' =>
      key <- stat_st_mtime f ;;
      if best_key <? key then max_by_mtime f key l' else max_by_mtime best best_key l'
  end.

(** [_find_most_recent_file] (lines 84-101). *)
Definition _find_most_recent_file (self : ExcelFileHandler) : Py Path :=
  found <- glob self ;;
  match found with
  | [] =>
      logger ERROR (NoFileWithPrefix (prefix self)) ;;
      raise (mkExn FileNotFoundError
               ("Nenhum arquivo com prefixo " ++ prefix self
                ++ " encontrado em " ++ directory self))
  | f :: rest =>
      key <- stat_st_mtime f ;;
      newest <- max_by_mtime f key rest ;;
      ret (path newest)
  end.

(** The entry that a path leads to, and whether [unlink] can remove it. *)
Definition entry_at (p : Path) (w : World) : option File :=
  find (fun f => Path_eqb (path f) p) (files w).

Definition removable (p : Path) (w : World) : bool :=
  match entry_at p w with
  | Some f => negb (locked f)
  | None => false
  end.

(** An entry that can be opened: it is there and [stat] finds it. *)
Definition on_disk (p : Path) (w : World) : bool :=
  existsb (fun f => Path_eqb (path f) p && has_mtime f) (files w).

(** [open(path, 'rb')], as far as it can fail here. *)
Definition open_rb (p : Path) : Py unit :=
  fun w =>
    if on_disk p w then (Return tt, w)
    else (Raise (os_error FileNotFoundError "2" "No such file or directory" (str_path p)),
          w).

(** [pd.read_excel(file_path, engine='calamine')]: pandas opens the file,
    which fails when there is none, and then reads it; the reading is a
    collaborator. *)
Definition pd_read (c : Collaborators) (file_path : Path) : Py DataFrame :=
  emit (Call (pd_read_excel file_path)) ;;
  open_rb file_path ;;
  deliver (read_excel c file_path).

(** [_load_to_dataframe] (lines 165-178); the pandas pipeline of
    [_process_dataframe] is a collaborator. *)
Definition _load_to_dataframe (c : Collaborators) (file_path : Path)
    : Py FileProcessingResult :=
  try_except
    (df <- pd_read c file_path ;;
     processed_df <- invoke process_dataframe (pandas_process c df) ;;
     logger INFO ExcelProcessed ;;
     ret (mkResult true "Arquivo processado com sucesso" (Some processed_df)))
    (fun e => ret (mkResult false ("Erro ao processar arquivo: " ++ str_e e) None)).

(** [file_path if file_path else self._find_most_recent_file()]: a [Path]
    is truthy, [None] is not. *)
Definition target_of (self : ExcelFileHandler) (file_path : option Path) : Py Path :=
  match file_path with
  | Some p => ret p
  | None => _find_most_recent_file self
  end.

(** [process_most_recent_file] (lines 180-195). *)
Definition process_most_recent_file (self : ExcelFileHandler) (c : Collaborators)
    (file_path : option Path) : Py FileProcessingResult :=
  try_except
    (target_path <- target_of self file_path ;;
     logger INFO (ProcessingTarget (name target_path)) ;;
     _load_to_dataframe c target_path)
    (fun e =>
       logger ERROR (ProcessRecentError e) ;;
       ret (mkResult false ("Erro ao processar arquivo mais recente: " ++ str_e e) None)).

(** [target_path.unlink()]: removes the entry; fails on a missing entry and
    on one that the system refuses to remove. *)
Definition unlink (p : Path) : Py unit :=
  emit (Unlink p) ;;
  fun w =>
    match entry_at p w with
    | None =>
        (Raise (os_error FileNotFoundError "2" "No such file or directory" (str_path p)), w)
    | Some f =>
        if locked f
        then (Raise (os_error PermissionError "13" "Permission denied" (str_path p)), w)
        else (Return tt,
              mkWorld (clock w) (dirs w)
                (filter (fun f => negb (Path_eqb (path f) p)) (files w))
                (denied w) (pathlib_glob w) (trace w))
    end.

(** [delete_most_recent_file] (lines 197-212). *)
Definition delete_most_recent_file (self : ExcelFileHandler)
    (file_path : option Path) : Py bool :=
  try_except
    (target_path <- target_of self file_path ;;
     unlink target_path ;;
     logger INFO (FileRemoved file_path) ;;
     ret true)
    (fun e => logger ERROR (RemoveError e) ;; ret false).

(** ** [MainOrchestrator] (main_base_sigitm_lp_fsp.py) *)

(** The fields set by [__init__] (lines 18-23); of [vpn_config] only
    [vpn_switch_timeout] is read. *)
Record MainOrchestrator := mkOrchestrator {
  max_retries : nat;
  retry_delay : Z;
  vpn_switch_timeout : Z
}.

Definition MainOrchestrator_init (switch_timeout : Z) : MainOrchestrator :=
  mkOrchestrator 3 10 switch_timeout.

(** What a coroutine declared [-> bool] hands back: [None] when control runs
    off its end without a [return]. *)
Definition truthy (v : option bool) : bool :=
  match v with
  | Some b => b
  | None => false
  end.

(** [_manage_vpn_connection] (lines 25-46).  The clause [except TimeoutError]
    comes before [except Exception]; it takes the timeout of
    [asyncio.wait_for] (since Python 3.11 the built-in [TimeoutError]) as
    well as a [TimeoutError] that the connector raises by itself. *)
Definition _manage_vpn_connection (self : MainOrchestrator) (c : Collaborators)
    : Py (option bool) :=
  invoke VPNConnectionManager_init (vpn_init c) ;;
  try_except
    (r <- wait_for_to_thread (vpn_connect c) (vpn_switch_timeout self + 10) ;;
     let (status, message) := r in
     if status
     then logger INFO (VpnEstablished message) ;; ret (Some true)
     else logger ERROR (VpnFailed message) ;; ret None)
    (fun e =>
       match cls e with
       | TimeoutError => logger CRITICAL VpnTimeout ;; ret (Some false)
       | _ => logger CRITICAL (VpnUnexpected e) ;; ret (Some false)
       end).

(** [_extract_step] (lines 48-57). *)
Definition _extract_step (c : Collaborators) : Py (bool * option Path) :=
  invoke SIGITMAutomation_init (scraper_init c) ;;
  try_finally
    (logger INFO ExtractionStarting ;;
     invoke execute_process_sigitm (scraper_execute c))
    (invoke scraper_close (scraper_closes c)).

(** [with PostgreSQLHandler(self.db_config) as db: body]: the handler is not
    part of the sources; its [__exit__] releases the connection and does not
    swallow the exception of the body. *)
Definition with_PostgreSQLHandler {A} (c : Collaborators) (body : Py A) : Py A :=
  invoke PostgreSQLHandler_enter (db_enter c) ;;
  try_finally body (invoke PostgreSQLHandler_exit (db_exit c)).

(** [len(df)]. *)
Definition len (df : option DataFrame) : Py Z :=
  match df with
  | Some rows => ret (Z.of_nat (List.length rows))
  | None => raise (mkExn TypeError "object of type 'NoneType' has no len()")
  end.

(** The [try] block of [_load_step] (lines 63-89). *)
Definition _load_body (c : Collaborators) (file_path : option Path) : Py bool :=
  handler <- ExcelFileHandler_init (user_downloads_dir c) None PREFIX ;;
  result <- process_most_recent_file handler c file_path ;;
  if negb (success result)
  then logger ERROR (TransformFailed (message result)) ;; ret false
  else
    let df := dataframe result in
    rows <- len df ;;
    logger INFO (TransformOk rows) ;;
    with_PostgreSQLHandler c
      (logger INFO DbConnected ;;
       present <- invoke table_exists (db_table_exists c) ;;
       (if negb present
        then invoke create_table_from_dataframe (db_create_table c) ;;
             logger INFO TableCreated
        else ret tt) ;;
       invoke bulk_insert_dataframe (db_bulk_insert c) ;;
       logger INFO LoadDone ;;
       _ <- delete_most_recent_file handler file_path ;;
       ret true).

(** [_load_step] (lines 59-92): the block above under its
    [except Exception as e] clause (lines 90-92). *)
Definition _load_step (c : Collaborators) (file_path : option Path) : Py bool :=
  try_except (_load_body c file_path)
    (fun e => logger ERROR (LoadCritical e) ;; ret false).

(** [not file_path] for an [Optional[Path]]. *)
Definition is_none (file_path : option Path) : bool :=
  match file_path with
  | Some _ => false
  | None => true
  end.

(** The body of the [for] loop of [run_pipeline] (lines 100-124). *)
Definition attempt_body (self : MainOrchestrator) (c : Collaborators)
    (start_time : Z) (attempt : nat) : Py unit :=
  logger INFO PipelineStarting ;;
  logger INFO (AttemptOf attempt (max_retries self)) ;;
  try_except
    (connected <- _manage_vpn_connection self c ;;
     (if negb (truthy connected)
      then raise (mkExn ConnectionError "❌ Falha de rede/VPN")
      else ret tt) ;;
     r <- _extract_step c ;;
     let (success_ext, file_path) := r in
     (if (negb success_ext || is_none file_path)%bool
      then raise (mkExn RuntimeError "❌ Falha na extração dos dados")
      else ret tt) ;;
     loaded <- _load_step c file_path ;;
     if loaded
     then
       now <- perf_counter ;;
       let total_time := now - start_time in
       logger INFO (PipelineDone (readable_time total_time)) ;;
       sys_exit 0
     else ret tt)
    (fun e =>
       logger WARNING (AttemptFailed attempt e) ;;
       if (attempt <=? max_retries self)%nat
       then logger INFO (WaitingRetry (retry_delay self)) ;;
            asyncio_sleep (retry_delay self)
       else ret tt).

(** [for x in l: body(x)]. *)
Fixpoint for_each {A} (l : list A) (body : A -> Py unit) : Py unit :=
  match l with
  | [] => ret tt
  | x :: l' => body x ;; for_each l' body
  end.

(** [run_pipeline] (lines 94-127); [world k] is how the collaborators behave
    during attempt [k]. *)
Definition run_pipeline (self : MainOrchestrator) (world : nat -> Collaborators)
    : Py unit :=
  start_time <- perf_counter ;;
  for_each (seq 1 (max_retries self))
    (fun attempt => attempt_body self (world attempt) start_time attempt) ;;
  logger CRITICAL DefinitiveFailure ;;
  sys_exit 1.

(** ** Reading a trace *)

(** The world a computation leaves. *)
Definition after {A} (m : Py A) (w : World) : World := snd (m w).

Definition is_sleep (ev : event) : bool :=
  match ev with
  | Sleep _ => true
  | _ => false
  end.


(** The side effects of the persist phase of the load stage: everything done
    to the database, and the removal of the artifact. *)
Definition is_persist (ev : event) : bool :=
  match ev with
  | Call PostgreSQLHandler_enter
  | Call table_exists
  | Call create_table_from_dataframe
  | Call bulk_insert_dataframe
  | Call PostgreSQLHandler_exit
  | Unlink _ => true
  | _ => false
  end.

(** What the transform phase of the load stage may leave in the trace: the
    records of [ExcelFileHandler.__init__] and of [process_most_recent_file]. *)
Definition is_transform (ev : event) : bool :=
  match ev with
  | Log WARNING (DirNotFound _)
  | Log INFO (DirCreated _)
  | Log ERROR (NoFileWithPrefix _)
  | Log INFO ExcelProcessed
  | Log INFO (ProcessingTarget _)
  | Log ERROR (ProcessRecentError _)
  | Mkdir _
  | Call (pd_read_excel _)
  | Call process_dataframe => true
  | _ => false
  end.


(** The record that [delete_most_recent_file] leaves when it fails. *)
Definition is_remove_error (ev : event) : bool :=
  match ev with
  | Log ERROR (RemoveError _) => true
  | _ => false
  end.

Inductive phase := Creation | Insertion | Deletion.

Definition phase_of (ev : event) : list phase :=
  match ev with
  | Call create_table_from_dataframe => [Creation]
  | Call bulk_insert_dataframe => [Insertion]
  | Unlink _ => [Deletion]
  | _ => []
  end.

(** The ordered side effects of a trace, in the order they happened. *)
Definition phases (t : list event) : list phase := flat_map phase_of t.

Definition count (p : event -> bool) (t : list event) : nat :=
  List.length (filter p t).

(** The events that a computation adds to the trace of the world it starts in. *)
Definition emitted {A} (m : Py A) (w : World) : list event :=
  skipn (List.length (trace w)) (trace (after m w)).

(** The connector does not come back within the timeout (in seconds). *)
Definition overdue (timeout : Z) (f : connector) : bool :=
  match f with
  | Completes b => timeout * ticks_per_second <? takes b
  | Hangs => true
  end.

(** Zero-padded [HH:MM:SS]. *)
Definition digit (n : Z) : ascii := ascii_of_nat (48 + Z.to_nat n).

Definition two_digits (n : Z) : string :=
  String (digit (n / 10)) (String (digit (n mod 10)) "").

Definition hh_mm_ss (seconds : Z) : string :=
  two_digits (seconds / 3600) ++ ":" ++ two_digits (seconds / 60 mod 60)
  ++ ":" ++ two_digits (seconds mod 60).

Definition is_digit (c : ascii) : bool :=
  (48 <=? nat_of_ascii c)%nat && (nat_of_ascii c <=? 57)%nat.

Definition is_hh_mm_ss (s : string) : bool :=
  match list_ascii_of_string s with
  | [h1; h2; c1; m1; m2; c2; s1; s2] =>
      is_digit h1 && is_digit h2 && Ascii.eqb c1 ":" && is_digit m1 && is_digit m2
      && Ascii.eqb c2 ":" && is_digit s1 && is_digit s2
  | _ => false
  end.

(** ** Scenarios *)

(** No pattern with wildcards selects anything. *)
Definition no_glob : string -> string -> outcome (list File) := fun _ _ => Return [].

Definition world0 : World := mkWorld 0 [] [] [] no_glob [].

Definition downloads : string := "/home/user/Downloads".

Definition report : Path := mkPath downloads "CONSULTA_TLP_PCP_LP_FSP_CS_041126.xlsx".

(** A machine whose downloads directory holds the report. *)
Definition desk : World :=
  mkWorld 0 [downloads] [mkFile report (Some 1762214400) false] [] no_glob [].

(** Every collaborator does its work at once. *)
Definition smooth : Collaborators :=
  mkCollaborators downloads (returns tt) (Completes (returns (true, "VPN principal")))
    (returns tt) (returns (true, Some report)) (returns tt)
    (fun _ => returns [["2025-11-03"; "4711"]]) (fun df => returns df)
    (returns tt) (returns false) (returns tt) (returns tt) (returns tt).

Definition with_vpn (f : connector) (c : Collaborators) : Collaborators :=
  mkCollaborators (user_downloads_dir c) (vpn_init c) f (scraper_init c) (scraper_execute c)
    (scraper_closes c) (read_excel c) (pandas_process c) (db_enter c) (db_table_exists c)
    (db_create_table c) (db_bulk_insert c) (db_exit c).

Definition with_scraper (b : call (bool * option Path)) (c : Collaborators) : Collaborators :=
  mkCollaborators (user_downloads_dir c) (vpn_init c) (vpn_connect c) (scraper_init c) b
    (scraper_closes c) (read_excel c) (pandas_process c) (db_enter c) (db_table_exists c)
    (db_create_table c) (db_bulk_insert c) (db_exit c).

Definition with_bulk_insert (b : call unit) (c : Collaborators) : Collaborators :=
  mkCollaborators (user_downloads_dir c) (vpn_init c) (vpn_connect c) (scraper_init c)
    (scraper_execute c) (scraper_closes c) (read_excel c) (pandas_process c) (db_enter c)
    (db_table_exists c) (db_create_table c) b (db_exit c).

Definition with_read_excel (b : call DataFrame) (c : Collaborators) : Collaborators :=
  mkCollaborators (user_downloads_dir c) (vpn_init c) (vpn_connect c) (scraper_init c)
    (scraper_execute c) (scraper_closes c) (fun _ => b) (pandas_process c) (db_enter c)
    (db_table_exists c) (db_create_table c) (db_bulk_insert c) (db_exit c).

(** The VPN routine reports that it could not connect. *)
Definition vpn_down : Collaborators :=
  with_vpn (Completes (returns (false, "sem rota"))) smooth.

(** The VPN routine never comes back. *)
Definition vpn_stuck : Collaborators := with_vpn Hangs smooth.

(** The portal takes a whole day to hand over the report. *)
Definition slow_portal : Collaborators :=
  with_scraper (mkCall (86400 * ticks_per_second) (Return (true, Some report))) smooth.


(** The database refuses the rows. *)
Definition full_disk : Collaborators :=
  with_bulk_insert (raises (mkExn OtherException "could not extend file")) smooth.

(** The spreadsheet cannot be read. *)
Definition bad_sheet : Collaborators :=
  with_read_excel (raises (mkExn OtherException "File is not a zip file")) smooth.

(** Whether the VPN stage handed the orchestrator a truthy value. *)
Definition connected_ok (o : outcome (option bool)) : bool :=
  match o with
  | Return v => truthy v
  | _ => false
  end.

(** The default orchestrator, and the worlds that the first attempt of
    [smooth] collaborators goes through on [desk]. *)
Definition office : MainOrchestrator := MainOrchestrator_init 30.

Definition desk_started : World :=
  after (logger INFO PipelineStarting ;;
         logger INFO (AttemptOf 1 (max_retries office))) desk.

Definition desk_connected : World :=
  after (_manage_vpn_connection office smooth) desk_started.

Definition desk_extracted : World := after (_extract_step smooth) desk_connected.

Definition desk_loaded : World := after (_load_step smooth (Some report)) desk_extracted.

(** A directory with two reports and a stranger. *)
Definition older : File :=
  mkFile (mkPath downloads "CONSULTA_TLP_PCP_LP_FSP_CS_031126.xlsx") (Some 1762128000) false.
Definition newer : File := mkFile report (Some 1762214400) false.
Definition stranger : File := mkFile (mkPath downloads "notas.txt") (Some 1762300000) false.

Definition shelf : World := mkWorld 0 [downloads] [older; stranger; newer] [] no_glob [].

(** What [bad_sheet] makes of the report on [desk]. *)
Definition desk_handled : World :=
  after (ExcelFileHandler_init (user_downloads_dir bad_sheet) None PREFIX) desk.

Definition unreadable : FileProcessingResult :=
  mkResult false "Erro ao processar arquivo: File is not a zip file" None.

Definition desk_unread : World :=
  after (process_most_recent_file (mkHandler downloads PREFIX) bad_sheet (Some report))
    desk_handled.

(** ** Stages of an attempt *)

(** Which part of the pipeline leaves an event: the head of the loop body,
    one of the three stages, or the end of the attempt (the record of the
    elapsed time, the [except] clause and its wait, the final failure). *)
Inductive stage := Start | VpnStage | ExtractStage | LoadStage | Finish.

Definition stage_of (ev : event) : stage :=
  match ev with
  | Log _ PipelineStarting | Log _ (AttemptOf _ _) => Start
  | Log _ (VpnEstablished _) | Log _ (VpnFailed _) | Log _ VpnTimeout
  | Log _ (VpnUnexpected _)
  | Call VPNConnectionManager_init | Call connect_with_fallback => VpnStage
  | Log _ ExtractionStarting
  | Call SIGITMAutomation_init | Call execute_process_sigitm | Call scraper_close =>
      ExtractStage
  | Log _ (PipelineDone _) | Log _ (AttemptFailed _ _) | Log _ (WaitingRetry _)
  | Log _ DefinitiveFailure | Sleep _ => Finish
  | _ => LoadStage
  end.

Definition rank (s : stage) : nat :=
  match s with
  | Start => 0
  | VpnStage => 1
  | ExtractStage => 2
  | LoadStage => 3
  | Finish => 4
  end.

Definition in_stage (s : stage) (ev : event) : bool :=
  Nat.eqb (rank (stage_of ev)) (rank s).

(** The stages of a trace follow the order of the pipeline. *)
Fixpoint in_order (from : nat) (t : list event) : bool :=
  match t with
  | [] => true
  | ev :: t' => Nat.leb from (rank (stage_of ev)) && in_order (rank (stage_of ev)) t'
  end.

Definition is_attempt_start (ev : event) : bool :=
  match ev with
  | Log INFO PipelineStarting => true
  | _ => false
  end.

Definition is_db_enter (ev : event) : bool :=
  match ev with
  | Call PostgreSQLHandler_enter => true
  | _ => false
  end.

Definition is_db_exit (ev : event) : bool :=
  match ev with
  | Call PostgreSQLHandler_exit => true
  | _ => false
  end.

(** The connector raises. *)
Definition vpn_crash : Collaborators :=
  with_vpn (Completes (raises (mkExn OtherException "rasdial: erro 691"))) smooth.

Definition with_scraper_close (b : call unit) (c : Collaborators) : Collaborators :=
  mkCollaborators (user_downloads_dir c) (vpn_init c) (vpn_connect c) (scraper_init c)
    (scraper_execute c) b (read_excel c) (pandas_process c) (db_enter c)
    (db_table_exists c) (db_create_table c) (db_bulk_insert c) (db_exit c).

(** The browser cannot be closed. *)
Definition stuck_browser : Collaborators :=
  with_scraper_close (raises (mkExn OtherException "Target closed")) smooth.

(** What [delete_most_recent_file] may leave in the trace. *)
Definition is_removal (ev : event) : bool :=
  match ev with
  | Unlink _
  | Log ERROR (NoFileWithPrefix _)
  | Log INFO (FileRemoved _)
  | Log ERROR (RemoveError _) => true
  | _ => false
  end.

(** What the VPN stage must have done for the scraper to be started. *)
Definition vpn_came_up (self : MainOrchestrator) (c : Collaborators) : Prop :=
  gives (vpn_init c) = Return tt
  /\ 0 < vpn_switch_timeout self + 10
  /\ exists b msg,
       vpn_connect c = Completes b
       /\ takes b <= (vpn_switch_timeout self + 10) * ticks_per_second
       /\ gives b = Return (true, msg).

(** The table is there, and the connection breaks while it is released. *)
Definition lost_connection : Collaborators :=
  mkCollaborators downloads (returns tt) (Completes (returns (true, "VPN principal")))
    (returns tt) (returns (true, Some report)) (returns tt)
    (fun _ => returns [["2025-11-03"; "4711"]]) (fun df => returns df)
    (returns tt) (returns true) (returns tt) (returns tt)
    (raises (mkExn OtherException "connection already closed")).

(** ** What escapes *)

(** How a call can end other than by returning. *)
Inductive fault :=
| Thrown (e : exn)
| Exited (status : Z).

Definition ends_with {A} (b : call A) (f : fault) : Prop :=
  match f with
  | Thrown e => gives b = Raise e
  | Exited status => gives b = Exit status
  end.

(** Some entry point of the collaborators ends with this fault. *)
Inductive faults (c : Collaborators) (f : fault) : Prop :=
| fault_vpn_init : ends_with (vpn_init c) f -> faults c f
| fault_vpn_connect (b : call (bool * string)) :
    vpn_connect c = Completes b -> ends_with b f -> faults c f
| fault_scraper_init : ends_with (scraper_init c) f -> faults c f
| fault_scraper_execute : ends_with (scraper_execute c) f -> faults c f
| fault_scraper_close : ends_with (scraper_closes c) f -> faults c f
| fault_read_excel (p : Path) : ends_with (read_excel c p) f -> faults c f
| fault_pandas_process (df : DataFrame) : ends_with (pandas_process c df) f -> faults c f
| fault_db_enter : ends_with (db_enter c) f -> faults c f
| fault_db_table_exists : ends_with (db_table_exists c) f -> faults c f
| fault_db_create_table : ends_with (db_create_table c) f -> faults c f
| fault_db_bulk_insert : ends_with (db_bulk_insert c) f -> faults c f
| fault_db_exit : ends_with (db_exit c) f -> faults c f.

(** An outcome that no [except Exception] clause takes, with where it comes
    from: an exception of a collaborator that does not derive from
    [Exception], or a [SystemExit] of a collaborator. *)
Definition escaped {A} (c : Collaborators) (o : outcome A) : Prop :=
  match o with
  | Return _ => False
  | Raise e => is_Exception (cls e) = false /\ faults c (Thrown e)
  | Exit status => faults c (Exited status)
  end.

(** Collaborators that fail only with exceptions derived from [Exception]. *)
Definition tame (c : Collaborators) : Prop :=
  forall f, faults c f ->
    match f with
    | Thrown e => is_Exception (cls e) = true
    | Exited _ => False
    end.

(** The VPN stage fails in a way that the attempt handles: it hands back a
    falsy value, or raises an exception derived from [Exception]. *)
Definition vpn_failed (o : outcome (option bool)) : bool :=
  match o with
  | Return v => negb (truthy v)
  | Raise e => is_Exception (cls e)
  | Exit _ => false
  end.

(** The connector is started and is back within the deadline, ending this
    way. *)
Definition connector_gives (self : MainOrchestrator) (c : Collaborators)
    (o : outcome (bool * string)) : Prop :=
  gives (vpn_init c) = Return tt
  /\ 0 < vpn_switch_timeout self + 10
  /\ exists b,
       vpn_connect c = Completes b
       /\ takes b <= (vpn_switch_timeout self + 10) * ticks_per_second
       /\ gives b = o.

(** The wait for the connector ends with the deadline: at once when the
    deadline is not positive, after it has passed otherwise. *)
Definition deadline_hit (self : MainOrchestrator) (c : Collaborators) : Prop :=
  gives (vpn_init c) = Return tt
  /\ (vpn_switch_timeout self + 10 <= 0
      \/ overdue (vpn_switch_timeout self + 10) (vpn_connect c) = true).

(** A record of error or critical severity. *)
Definition is_error_record (ev : event) : bool :=
  match ev with
  | Log ERROR _ | Log CRITICAL _ => true
  | _ => false
  end.

(** ** More scenarios *)

(** The report cannot be removed. *)
Definition desk_locked : World :=
  mkWorld 0 [downloads] [mkFile report (Some 1762214400) true] [] no_glob [].



(** The scraping workflow leaves through [sys.exit(3)]. *)
Definition scraper_quits : Collaborators := with_scraper (exits 3) smooth.

(** The scraping workflow leaves through [sys.exit(1)]. *)
Definition scraper_gives_up : Collaborators := with_scraper (exits 1) smooth.

(** The operator interrupts the VPN routine. *)
Definition vpn_interrupted : Collaborators :=
  with_vpn (Completes (raises (mkExn KeyboardInterrupt ""))) smooth.

(** The connection is cancelled while it is released. *)
Definition cancelled_release : Collaborators :=
  mkCollaborators downloads (returns tt) (Completes (returns (true, "VPN principal")))
    (returns tt) (returns (true, Some report)) (returns tt)
    (fun _ => returns [["2025-11-03"; "4711"]]) (fun df => returns df)
    (returns tt) (returns true) (returns tt) (returns tt)
    (raises (mkExn CancelledError "")).

(** The scraping workflow is cancelled. *)
Definition scraper_cancelled : Collaborators :=
  with_scraper (raises (mkExn CancelledError "")) smooth.

(** A link whose target is gone, between the two reports. *)
Definition ghost : File :=
  mkFile (mkPath downloads "CONSULTA_TLP_PCP_LP_FSP_CS_antigo.xlsx") None false.

Definition haunted : World := mkWorld 0 [downloads] [older; ghost; newer] [] no_glob [].

(** A machine on which the downloads directory cannot be created. *)
Definition sealed : World := mkWorld 0 [] [] [downloads] no_glob [].

(** An orchestrator whose switch timeout makes the deadline of the VPN
    stage zero. *)
Definition impatient : MainOrchestrator := MainOrchestrator_init (-10).
(** * Proofs *)

(** ** Traces *)

Lemma skipn_length_app {A} (l t : list A) : skipn (List.length l) (l ++ t) = t.
Proof. induction l as [|x l IH]; simpl; auto. Qed.

Lemma emitted_extends {A} (m : Py A) (w : World) (t : list event) :
  trace (after m w) = (trace w ++ t)%list -> emitted m w = t.
Proof. unfold emitted. intros ->. apply skipn_length_app. Qed.

Lemma count_app (p : event -> bool) (t u : list event) :
  count p (t ++ u) = (count p t + count p u)%nat.
Proof. unfold count. now rewrite filter_app, length_app. Qed.

(** Unfolding the monad, one case split at a time. *)
Ltac py_unfold :=
  unfold after, bind, ret, raise, sys_exit, try_except, try_finally, invoke, deliver, logger,
    emit, advance, perf_counter, asyncio_sleep in *.

Ltac py_case :=
  match goal with
  | |- context [match gives ?b with _ => _ end] => destruct (gives b) as [[]|?|?] eqn:?
  | |- context [match gives ?b with _ => _ end] => destruct (gives b) eqn:?
  | |- context [if is_Exception (cls ?e) then _ else _] =>
      destruct (is_Exception (cls e)) eqn:?
  | |- context [if negb (existsb ?f ?l) then _ else _] => destruct (existsb f l) eqn:?
  | |- context [match filter ?f ?l with _ => _ end] => destruct (filter f l) eqn:?
  | |- context [match find ?f ?l with _ => _ end] => destruct (find f l) eqn:?
  | |- context [if locked ?f then _ else _] => destruct (locked f) eqn:?
  | |- context [if negb ?b then _ else _] => destruct b eqn:?
  | |- context [if ?b then _ else _] => destruct b eqn:?
  end.

Ltac trace_done :=
  cbn [trace snd fst]; rewrite <- ?app_assoc; cbn [app]; rewrite ?skipn_length_app.

(** ** The VPN adapter *)

(** C2 (the code at the failing branch): when the constructor of the manager
    returns, the deadline is positive and [connect_with_fallback] comes back
    within it with a false status, [_manage_vpn_connection] logs the error
    and then runs off its end: what the caller receives is [None], not
    [False], although [None] is falsy as well. *)
Theorem vpn_failure_branch_returns_None (self : MainOrchestrator) (c : Collaborators)
    (w : World) (d : Z) (msg : string) :
  gives (vpn_init c) = Return tt ->
  vpn_connect c = Completes (mkCall d (Return (false, msg))) ->
  0 < vpn_switch_timeout self + 10 ->
  d <= (vpn_switch_timeout self + 10) * ticks_per_second ->
  fst (_manage_vpn_connection self c w) = Return None
  /\ None <> Some false
  /\ truthy None = false
  /\ emitted (_manage_vpn_connection self c) w
     = [Call VPNConnectionManager_init; Call connect_with_fallback; Log ERROR (VpnFailed msg)].
Proof.
  intros Hinit Hconn Hpos Hd.
  apply Z.leb_le in Hd. apply Z.leb_gt in Hpos.
  unfold emitted, _manage_vpn_connection, wait_for_to_thread. py_unfold.
  cbn. rewrite Hinit, Hpos, Hconn. cbn. rewrite Hd. cbn.
  repeat split; try discriminate.
  now trace_done.
Qed.

(** C8: with a switch timeout that is not negative and a manager whose
    constructor returns, the wait for [connect_with_fallback] never lasts
    longer than [vpn_switch_timeout + 10] seconds; and when the connector is
    not back by then, the adapter stops waiting exactly at that deadline,
    logs at critical severity and returns [False]. *)
Theorem vpn_deadline (self : MainOrchestrator) (c : Collaborators) (w : World) :
  0 <= vpn_switch_timeout self ->
  gives (vpn_init c) = Return tt ->
  let deadline := (vpn_switch_timeout self + 10) * ticks_per_second in
  let w' := after (_manage_vpn_connection self c) w in
  clock w' - (clock w + takes (vpn_init c)) <= deadline
  /\ (overdue (vpn_switch_timeout self + 10) (vpn_connect c) = true ->
      fst (_manage_vpn_connection self c w) = Return (Some false)
      /\ clock w' = clock w + takes (vpn_init c) + deadline
      /\ emitted (_manage_vpn_connection self c) w
         = [Call VPNConnectionManager_init; Call connect_with_fallback;
            Log CRITICAL VpnTimeout]).
Proof.
  intros Hpos Hinit deadline w'. subst deadline w'.
  assert (Hgt : (vpn_switch_timeout self + 10 <=? 0) = false) by (apply Z.leb_gt; lia).
  unfold emitted, overdue, _manage_vpn_connection, wait_for_to_thread. py_unfold.
  unfold ticks_per_second. cbn. rewrite Hinit, Hgt. cbn.
  destruct (vpn_connect c) as [b|]; cbn.
  - destruct (takes b <=? (vpn_switch_timeout self + 10) * 1000) eqn:Hle; cbn.
    + apply Z.leb_le in Hle.
      split.
      * destruct (gives b) as [[[] m]|e|s]; cbn; try destruct (cls e); cbn; lia.
      * intros Hlt. apply Z.ltb_lt in Hlt. lia.
    + split; [lia|]. intros _.
      repeat split; try lia; now trace_done.
  - split; [lia|]. intros _.
    repeat split; try lia; now trace_done.
Qed.

Lemma vpn_failure_branch_returns_None_witness :
  fst (_manage_vpn_connection (MainOrchestrator_init 30) vpn_down world0) = Return None
  /\ None <> Some false
  /\ truthy None = false
  /\ emitted (_manage_vpn_connection (MainOrchestrator_init 30) vpn_down) world0
     = [Call VPNConnectionManager_init; Call connect_with_fallback;
        Log ERROR (VpnFailed "sem rota")].
Proof.
  apply (vpn_failure_branch_returns_None (MainOrchestrator_init 30) vpn_down world0 0 "sem rota").
  - reflexivity.
  - reflexivity.
  - reflexivity.
  - vm_compute. discriminate.
Defined.

Lemma vpn_deadline_witness :
  clock (after (_manage_vpn_connection (MainOrchestrator_init 30) vpn_stuck) world0)
  - (clock world0 + takes (vpn_init vpn_stuck)) <= (30 + 10) * ticks_per_second
  /\ (overdue (30 + 10) (vpn_connect vpn_stuck) = true ->
      fst (_manage_vpn_connection (MainOrchestrator_init 30) vpn_stuck world0)
      = Return (Some false)
      /\ clock (after (_manage_vpn_connection (MainOrchestrator_init 30) vpn_stuck) world0)
         = clock world0 + takes (vpn_init vpn_stuck) + (30 + 10) * ticks_per_second
      /\ emitted (_manage_vpn_connection (MainOrchestrator_init 30) vpn_stuck) world0
         = [Call VPNConnectionManager_init; Call connect_with_fallback;
            Log CRITICAL VpnTimeout]).
Proof.
  apply (vpn_deadline (MainOrchestrator_init 30) vpn_stuck world0).
  - vm_compute. discriminate.
  - reflexivity.
Defined.

(** ** The extraction adapter *)



(** Without a session there is nothing to close: an exception of the
    constructor leaves [_extract_step] before its [try]. *)
Lemma extract_step_no_session (c : Collaborators) (w : World) (e : exn) :
  gives (scraper_init c) = Raise e ->
  fst (_extract_step c w) = Raise e
  /\ emitted (_extract_step c) w = [Call SIGITMAutomation_init].
Proof.
  intros Hinit.
  unfold emitted, _extract_step. py_unfold.
  cbn. rewrite Hinit. cbn. split; [reflexivity | now trace_done].
Qed.
(** ** The file handler *)

Lemma forallb_filter_nil {A} (p q : A -> bool) (l : list A) :
  (forall x, p x = true -> q x = false) ->
  forallb p l = true -> filter q l = [].
Proof.
  intros Hpq. induction l as [|x l IH]; simpl; [reflexivity|].
  intros H. apply andb_prop in H as [Hx Hl].
  now rewrite (Hpq x Hx), IH.
Qed.

Lemma transform_not_persist (t : list event) :
  forallb is_transform t = true -> filter is_persist t = [].
Proof.
  apply forallb_filter_nil.
  intros [lv m|c0|d|p|s]; try destruct lv; try destruct m; try destruct c0; simpl;
    congruence.
Qed.

Lemma forallb_existsb_false {A} (p q : A -> bool) (l : list A) :
  (forall x, p x = true -> q x = false) ->
  forallb p l = true -> existsb q l = false.
Proof.
  intros Hpq. induction l as [|x l IH]; simpl; [reflexivity|].
  intros H. apply andb_prop in H as [Hx Hl].
  now rewrite (Hpq x Hx), IH.
Qed.

Lemma transform_not_remove_error (t : list event) :
  forallb is_transform t = true -> existsb is_remove_error t = false.
Proof.
  apply forallb_existsb_false.
  intros [lv m|c0|d|p|s]; try destruct lv; try destruct m; try destruct c0; simpl;
    congruence.
Qed.

Lemma phases_app (t u : list event) : phases (t ++ u) = (phases t ++ phases u)%list.
Proof. apply flat_map_app. Qed.

Lemma transform_phases (t : list event) :
  forallb is_transform t = true -> phases t = [].
Proof.
  induction t as [|ev t IH]; simpl; [reflexivity|].
  intros H. apply andb_prop in H as [Hev Ht]. rewrite (IH Ht).
  destruct ev as [lv m|c0|d|p|s]; try destruct lv; try destruct m; try destruct c0;
    simpl in *; congruence.
Qed.

(** Closes [trace w' = trace w ++ ?t] once [w'] is known. *)
Ltac trace_ext :=
  cbn [trace];
  first [ symmetry; apply app_nil_r | rewrite <- ?app_assoc; cbn [app]; reflexivity ].

Ltac handler_unfold :=
  unfold process_most_recent_file, delete_most_recent_file, _load_to_dataframe, pd_read,
    open_rb, target_of, ExcelFileHandler_init, unlink, entry_at, mkdir, Path_exists;
  py_unfold.

Ltac handler_paths :=
  repeat (cbn -[String.append on_disk]; py_case); cbn -[String.append on_disk].

(** Names the collaborator that a fault comes from. *)
Ltac blame := solve [econstructor; cbn [ends_with]; eassumption].

(** How a path through a function ended: with a value, with an exception
    that the next [except Exception] takes, or with a fault of a
    collaborator that escapes. *)
Ltac ended :=
  first [ left; eexists; reflexivity
        | right; left; eexists; split; [reflexivity | assumption || reflexivity]
        | right; right; cbn [escaped];
          first [split; [assumption || reflexivity | blame] | blame] ].

(** The constructor only adds records of its own and touches no file; it
    returns a handler on the downloads directory unless the directory is
    missing and cannot be created. *)
Lemma ExcelFileHandler_init_runs (dl pfx : string) (w : World) :
  exists o w' t,
    ExcelFileHandler_init dl None pfx w = (o, w')
    /\ trace w' = (trace w ++ t)%list
    /\ files w' = files w
    /\ forallb is_transform t = true
    /\ (o = Return (mkHandler dl pfx) /\ (path_exists dl w || can_create dl w)%bool = true
        \/ exists e, o = Raise e /\ is_Exception (cls e) = true
                     /\ (path_exists dl w || can_create dl w)%bool = false).
Proof.
  handler_unfold. unfold path_exists, can_create, is_dir, is_entry.
  destruct (existsb (String.eqb dl) (dirs w)) eqn:Hdir; cbn -[String.append].
  { eexists _, _, _; split; [reflexivity|]; split; [trace_ext|]; auto. }
  destruct (existsb (fun f => String.eqb (str_path (path f)) dl && has_mtime f) (files w))
    eqn:Hfile; cbn -[String.append].
  { eexists _, _, _; split; [reflexivity|]; split; [trace_ext|]; auto. }
  rewrite Hdir. cbn -[String.append].
  destruct (existsb (fun f => String.eqb (str_path (path f)) dl) (files w));
    cbn -[String.append].
  { eexists _, _, _; split; [reflexivity|]; split; [trace_ext|]; eauto 10. }
  destruct (existsb (String.eqb dl) (denied w)); cbn -[String.append].
  all: eexists _, _, _; split; [reflexivity|]; split; [trace_ext|]; eauto 10.
Qed.

(** The loop of [max] changes nothing: it returns one of the entries, or
    raises what [stat] raises. *)
Lemma max_by_mtime_runs (l : list File) (best : File) (key : Z) (w : World) :
  (exists g, max_by_mtime best key l w = (Return g, w))
  \/ (exists e, max_by_mtime best key l w = (Raise e, w) /\ is_Exception (cls e) = true).
Proof.
  revert best key. induction l as [|f l IH]; intros best key.
  - left. eexists. reflexivity.
  - cbn [max_by_mtime]. unfold bind, stat_st_mtime.
    destruct (mtime f) as [t|]; cbn -[String.append].
    + destruct (key <? t); apply IH.
    + right. eexists. split; reflexivity.
Qed.

(** With a plain prefix the search changes nothing when it finds a file;
    when it does not it raises an exception derived from [Exception], after
    the error record if no entry matched. *)
Lemma find_most_recent_file_runs (self : ExcelFileHandler) (w : World) :
  plain (prefix self) = true ->
  (exists p, _find_most_recent_file self w = (Return p, w))
  \/ (exists e,
        is_Exception (cls e) = true
        /\ (_find_most_recent_file self w = (Raise e, w)
            \/ _find_most_recent_file self w
               = (Raise e, after (logger ERROR (NoFileWithPrefix (prefix self))) w))).
Proof.
  intros Hplain. unfold _find_most_recent_file, glob, bind, stat_st_mtime.
  rewrite Hplain.
  destruct (candidates self w) as [|f rest].
  - right. eexists. split; [|right; reflexivity]. reflexivity.
  - destruct (mtime f) as [t|]; cbn -[String.append].
    + destruct (max_by_mtime_runs rest f t w) as [[g Hg]|[e [He Hc]]]; rewrite ?Hg, ?He.
      * left. eexists. reflexivity.
      * right. exists e. auto.
    + right. eexists. split; [|left; reflexivity]. reflexivity.
Qed.

(** [process_most_recent_file] touches no file and adds only records of the
    transform phase.  It returns a result unless pandas ends with something
    that [except Exception] does not take. *)
Lemma process_most_recent_file_runs (self : ExcelFileHandler) (c : Collaborators)
    (file_path : option Path) (w : World) :
  plain (prefix self) = true ->
  exists o w' t,
    process_most_recent_file self c file_path w = (o, w')
    /\ trace w' = (trace w ++ t)%list
    /\ files w' = files w
    /\ forallb is_transform t = true
    /\ ((exists r, o = Return r) \/ escaped c o).
Proof.
  intros Hplain.
  assert (Hsome : forall p w0, exists o w' t,
            (try_except
               (target_path <- ret p ;;
                logger INFO (ProcessingTarget (name target_path)) ;;
                _load_to_dataframe c target_path)
               (fun e =>
                  logger ERROR (ProcessRecentError e) ;;
                  ret (mkResult false
                         ("Erro ao processar arquivo mais recente: " ++ str_e e) None))) w0
            = (o, w')
            /\ trace w' = (trace w0 ++ t)%list
            /\ files w' = files w0
            /\ forallb is_transform t = true
            /\ ((exists r, o = Return r) \/ escaped c o)).
  { intros p w0. handler_unfold. handler_paths.
    all: eexists _, _, _; split; [reflexivity|]; split; [trace_ext|].
    all: split; [reflexivity|]; split; [reflexivity|].
    all: first [ left; eexists; reflexivity
               | right; cbn [escaped];
                 first [split; [assumption || reflexivity | blame] | blame] ]. }
  destruct file_path as [p|]; [apply Hsome|].
  unfold process_most_recent_file, target_of.
  destruct (find_most_recent_file_runs self w Hplain) as [[p Hp]|[e [Hc [He|He]]]].
  - specialize (Hsome p w). unfold try_except, bind, ret in *. rewrite Hp. exact Hsome.
  - unfold try_except, bind at 1. rewrite He, Hc. py_unfold. cbn -[String.append].
    eexists _, _, _; split; [reflexivity|]; split; [trace_ext|]; eauto.
  - unfold try_except, bind at 1. rewrite He, Hc. py_unfold. cbn -[String.append].
    eexists _, _, _; split; [reflexivity|]; split; [trace_ext|]; eauto.
Qed.

(** [delete_most_recent_file] always returns a boolean.  It attempts at most
    one removal; it returns [False] exactly when it logs the error; and a
    call that fails leaves the files as they were. *)
Lemma delete_most_recent_file_runs (self : ExcelFileHandler) (file_path : option Path)
    (w : World) :
  plain (prefix self) = true ->
  exists b w' t,
    delete_most_recent_file self file_path w = (Return b, w')
    /\ trace w' = (trace w ++ t)%list
    /\ clock w' = clock w
    /\ forallb is_removal t = true
    /\ (phases t = [] \/ phases t = [Deletion])
    /\ existsb is_remove_error t = negb b
    /\ (b = false -> files w' = files w)
    /\ (phases t = [] -> b = false)
    /\ (file_path <> None -> phases t = [Deletion]).
Proof.
  intros Hplain.
  assert (Hsome : forall p w0, exists b w' t,
            (try_except
               (target_path <- ret p ;;
                unlink target_path ;;
                logger INFO (FileRemoved file_path) ;;
                ret true)
               (fun e => logger ERROR (RemoveError e) ;; ret false)) w0
            = (Return b, w')
            /\ trace w' = (trace w0 ++ t)%list
            /\ clock w' = clock w0
            /\ forallb is_removal t = true
            /\ (phases t = [] \/ phases t = [Deletion])
            /\ existsb is_remove_error t = negb b
            /\ (b = false -> files w' = files w0)
            /\ (phases t = [] -> b = false)
            /\ phases t = [Deletion]).
  { intros p w0. handler_unfold. handler_paths.
    all: eexists _, _, _; split; [reflexivity|]; split; [trace_ext|].
    all: cbn; repeat split; auto; try discriminate. }
  unfold delete_most_recent_file, target_of.
  destruct file_path as [p|].
  { destruct (Hsome p w) as (b & w' & t & H1 & H2 & H3 & H4 & H5 & H6 & H7 & H8 & H9).
    exists b, w', t. repeat split; auto. }
  destruct (find_most_recent_file_runs self w Hplain) as [[p Hp]|[e [Hc [He|He]]]].
  - destruct (Hsome p w) as (b & w' & t & H1 & H2 & H3 & H4 & H5 & H6 & H7 & H8 & H9).
    exists b, w', t. unfold try_except, bind, ret in *. rewrite Hp.
    repeat split; auto.
  - unfold try_except, bind at 1. rewrite He, Hc. py_unfold. cbn -[String.append].
    eexists _, _, _; split; [reflexivity|]; split; [trace_ext|].
    cbn; repeat split; auto; try discriminate; congruence.
  - unfold try_except, bind at 1. rewrite He, Hc. py_unfold. cbn -[String.append].
    eexists _, _, _; split; [reflexivity|]; split; [trace_ext|].
    cbn; repeat split; auto; try discriminate; congruence.
Qed.

Lemma plain_PREFIX : plain PREFIX = true.
Proof. reflexivity. Qed.

(** With a path, a file that can be opened and pandas doing its work, the
    transform succeeds and hands over what the pipeline made. *)
Lemma process_succeeds (self : ExcelFileHandler) (c : Collaborators) (p : Path) (w : World)
    (df out : DataFrame) :
  on_disk p w = true ->
  gives (read_excel c p) = Return df ->
  gives (pandas_process c df) = Return out ->
  exists w',
    process_most_recent_file self c (Some p) w
    = (Return (mkResult true "Arquivo processado com sucesso" (Some out)), w')
    /\ files w' = files w
    /\ trace w'
       = (trace w ++ [Log INFO (ProcessingTarget (name p)); Call (pd_read_excel p);
                      Call process_dataframe; Log INFO ExcelProcessed])%list.
Proof.
  intros Hdisk Hr Hp. handler_unfold. cbn -[String.append on_disk].
  change (on_disk p _) with (on_disk p w). rewrite Hdisk.
  cbn -[String.append]. rewrite Hr. cbn -[String.append]. rewrite Hp.
  cbn -[String.append]. eexists. split; [reflexivity|]. split; [reflexivity|].
  cbn [trace]. now rewrite <- !app_assoc.
Qed.

Lemma process_success_inv (self : ExcelFileHandler) (c : Collaborators) (p : Path)
    (w : World) (r : FileProcessingResult) :
  fst (process_most_recent_file self c (Some p) w) = Return r ->
  success r = true ->
  on_disk p w = true
  /\ exists df out,
       gives (read_excel c p) = Return df
       /\ gives (pandas_process c df) = Return out
       /\ dataframe r = Some out.
Proof.
  handler_unfold. handler_paths.
  all: intros H; try discriminate H; injection H as <-; cbn -[String.append];
    intros Hs; try discriminate Hs.
  all: split; [assumption|]; eexists _, _; repeat split; eassumption || reflexivity.
Qed.

(** A removal that the system refuses is caught and logged, and changes
    nothing. *)
Lemma delete_fails (self : ExcelFileHandler) (p : Path) (w : World) :
  removable p w = false ->
  exists e,
    is_Exception (cls e) = true
    /\ delete_most_recent_file self (Some p) w
       = (Return false, after (emit (Unlink p) ;; logger ERROR (RemoveError e)) w).
Proof.
  unfold removable. handler_unfold. cbn -[String.append].
  destruct (find _ (files w)) as [f|]; [destruct (locked f)|]; cbn -[String.append];
    intros H; try discriminate H.
  all: eexists; split; [|reflexivity]; reflexivity.
Qed.

Lemma removable_files (p : Path) (w w' : World) :
  files w' = files w -> removable p w' = removable p w.
Proof. unfold removable, entry_at. now intros ->. Qed.
(** ** The load stage *)

(** Runs [_load_step] along each of its paths.  The constructor, the
    transform and the removal are taken through their lemmas above; every
    call of the database is split into its outcomes. *)
Ltac load_step_case :=
  match goal with
  | H : is_Exception (cls ?e) = _ |- context [is_Exception (cls ?e)] => rewrite H
  | |- context [ExcelFileHandler_init ?d None ?pfx ?W] =>
      let o := fresh "o" in let w1 := fresh "w1" in let t0 := fresh "t0" in
      let Hinit := fresh "Hinit" in let Ht0 := fresh "Ht0" in
      let Hf0 := fresh "Hf0" in let Hq0 := fresh "Hq0" in
      let Ho := fresh "Ho" in let e := fresh "e" in
      let Hc := fresh "Hc" in let Hdir := fresh "Hdir" in
      destruct (ExcelFileHandler_init_runs d pfx W)
        as (o & w1 & t0 & Hinit & Ht0 & Hf0 & Hq0 & Ho);
      rewrite Hinit; destruct Ho as [[-> Hdir] | (e & -> & Hc & Hdir)]
  | |- context [process_most_recent_file ?h ?c ?fp ?W] =>
      let o := fresh "o" in let w2 := fresh "w2" in let t1 := fresh "t1" in
      let Hproc := fresh "Hproc" in let Ht1 := fresh "Ht1" in
      let Hf1 := fresh "Hf1" in let Hq1 := fresh "Hq1" in
      let Ho := fresh "Ho" in let r := fresh "r" in
      let e := fresh "e" in let s := fresh "s" in
      let Hc := fresh "Hc" in let Hfault := fresh "Hfault" in
      destruct (process_most_recent_file_runs h c fp W plain_PREFIX)
        as (o & w2 & t1 & Hproc & Ht1 & Hf1 & Hq1 & Ho);
      rewrite Hproc;
      destruct Ho as [[r ->] | Ho];
      [ | destruct o as [r|e|s]; cbn [escaped] in Ho;
          [destruct Ho | destruct Ho as [Hc Hfault] | ] ]
  | |- context [delete_most_recent_file ?h ?fp ?W] =>
      let b := fresh "deleted" in let w3 := fresh "w3" in let td := fresh "td" in
      let Hdel := fresh "Hdel" in let Htd := fresh "Htd" in
      let Hck := fresh "Hck" in let Hqd := fresh "Hqd" in
      let Hph := fresh "Hph" in let Herr := fresh "Herr" in
      let Hkeep := fresh "Hkeep" in let Hnone := fresh "Hnone" in
      let Hgiven := fresh "Hgiven" in
      destruct (delete_most_recent_file_runs h fp W plain_PREFIX)
        as (b & w3 & td & Hdel & Htd & Hck & Hqd & Hph & Herr & Hkeep & Hnone & Hgiven);
      rewrite Hdel; cbn [trace files clock] in Htd, Hkeep, Hck
  | |- context [match gives ?b with _ => _ end] => destruct (gives b) as [[]|?|?] eqn:?
  | |- context [match gives ?b with _ => _ end] => destruct (gives b) as [[|]|?|?] eqn:?
  | |- context [if is_Exception (cls ?e) then _ else _] =>
      destruct (is_Exception (cls e)) eqn:?
  | |- context [if negb (success ?r) then _ else _] => destruct (success r) eqn:?
  | |- context [match dataframe ?r with _ => _ end] => destruct (dataframe r) eqn:?
  end.

Ltac load_walk :=
  unfold emitted, after, _load_step, _load_body, with_PostgreSQLHandler, len; py_unfold;
  repeat
    (cbn -[ExcelFileHandler_init process_most_recent_file delete_most_recent_file
           skipn phases count In filter existsb forallb in_order last];
     load_step_case);
  cbn -[skipn phases count In filter existsb forallb in_order last];
  repeat match goal with
         | H : trace ?x = _ |- _ => rewrite H; clear H
         end;
  rewrite <- ?app_assoc; cbn [app]; rewrite ?skipn_length_app.


Lemma last_hd_rev {A} (l : list A) (d : A) : last l d = hd d (rev l).
Proof.
  induction l as [|x l IH] using rev_ind; [reflexivity|].
  now rewrite last_last, rev_app_distr.
Qed.

(** Computes the last event of a trace whose end is known. *)
Ltac last_norm :=
  rewrite last_hd_rev; repeat (rewrite rev_app_distr || cbn [rev app]); cbn [hd].


Lemma phases_cons (ev : event) (t : list event) :
  phases (ev :: t) = (phase_of ev ++ phases t)%list.
Proof. reflexivity. Qed.

(** What the records of the transform phase are not. *)
Ltac transform_facts :=
  repeat match goal with
         | H : forallb is_transform ?t = true |- _ =>
             pose proof (transform_phases _ H);
             pose proof (transform_not_remove_error _ H);
             pose proof (transform_not_persist _ H);
             clear H
         end.

Ltac phases_norm :=
  repeat (rewrite phases_cons || rewrite phases_app);
  change (phases []) with (@nil phase); cbn [phase_of app];
  repeat match goal with
         | H : phases ?t = _ |- _ => rewrite !H
         end;
  cbn [app].

(** C4: whatever the collaborators do, the side effects of [_load_step] come
    in the order table creation, bulk insert, removal of the artifact, each
    at most once.  A removal is attempted only after a bulk insert that
    returned; a run without removal leaves the files as they were; so when
    the creation of the table or the bulk insert raises, the artifact is not
    deleted. *)
Theorem load_step_order (c : Collaborators) (file_path : option Path) (w : World) :
  In (phases (emitted (_load_step c file_path) w))
     [ []; [Creation]; [Insertion]; [Creation; Insertion];
       [Insertion; Deletion]; [Creation; Insertion; Deletion] ]
  /\ (In Deletion (phases (emitted (_load_step c file_path) w)) ->
      gives (db_bulk_insert c) = Return tt)
  /\ (~ In Deletion (phases (emitted (_load_step c file_path) w)) ->
      files (after (_load_step c file_path) w) = files w)
  /\ (forall e,
      In Creation (phases (emitted (_load_step c file_path) w)) ->
      gives (db_create_table c) = Raise e \/ gives (db_bulk_insert c) = Raise e ->
      ~ In Deletion (phases (emitted (_load_step c file_path) w))
      /\ files (after (_load_step c file_path) w) = files w).
Proof.
  load_walk.
  all: transform_facts.
  all: phases_norm.
  all: try (destruct Hph as [Hph|Hph]; rewrite Hph; cbn [app];
            try (specialize (Hnone Hph); specialize (Hkeep Hnone))).
  all: cbn [files snd In].
  all: repeat split; intros.
  all: try (intuition (try discriminate; congruence)); auto 10.
Qed.

(** C6: when the transform reports a failure, [_load_step] logs it and
    returns [False] at once: the world is the one the transform left, plus
    that record, and nothing of the persist phase (database connection, table
    check, table creation, bulk insert, removal of the artifact) is in the
    trace. *)
Theorem load_step_stops_on_failed_transform (c : Collaborators) (file_path : option Path)
    (w w1 w2 : World) (handler : ExcelFileHandler) (result : FileProcessingResult) :
  ExcelFileHandler_init (user_downloads_dir c) None PREFIX w = (Return handler, w1) ->
  process_most_recent_file handler c file_path w1 = (Return result, w2) ->
  success result = false ->
  _load_step c file_path w
  = (Return false, after (logger ERROR (TransformFailed (message result))) w2)
  /\ count is_persist (emitted (_load_step c file_path) w) = 0%nat.
Proof.
  intros Hinit Hproc Hfail.
  assert (Hrun : _load_step c file_path w
                 = (Return false,
                    after (logger ERROR (TransformFailed (message result))) w2)).
  { unfold _load_step, _load_body, try_except, bind.
    rewrite Hinit, Hproc, Hfail. reflexivity. }
  split; [exact Hrun|].
  destruct (ExcelFileHandler_init_runs (user_downloads_dir c) PREFIX w)
    as (o0 & w1' & t0 & Hinit' & Ht0 & _ & Hq0 & Ho0).
  rewrite Hinit in Hinit'. injection Hinit' as <- <-.
  assert (Hh : handler = mkHandler (user_downloads_dir c) PREFIX).
  { destruct Ho0 as [[Ho0 _]|(e & Ho0 & _)]; congruence. }
  subst handler.
  destruct (process_most_recent_file_runs
              (mkHandler (user_downloads_dir c) PREFIX) c file_path w1 plain_PREFIX)
    as (o1 & w2' & t1 & Hproc' & Ht1 & _ & Hq1 & _).
  rewrite Hproc in Hproc'. injection Hproc' as <- <-.
  unfold emitted, after at 1. rewrite Hrun. py_unfold. cbn [snd trace].
  rewrite Ht1, Ht0, <- !app_assoc, skipn_length_app.
  rewrite !count_app. unfold count.
  now rewrite (transform_not_persist _ Hq0), (transform_not_persist _ Hq1).
Qed.

Lemma count_cons (p : event -> bool) (ev : event) (t : list event) :
  count p (ev :: t) = ((if p ev then 1 else 0) + count p t)%nat.
Proof. unfold count. cbn [filter]. destruct (p ev); reflexivity. Qed.

Lemma forallb_count_zero (p q : event -> bool) (t : list event) :
  (forall ev, p ev = true -> q ev = false) ->
  forallb p t = true -> count q t = 0%nat.
Proof.
  intros Hpq Hp. unfold count. now rewrite (forallb_filter_nil p q t Hpq Hp).
Qed.

Ltac count_norm :=
  repeat (rewrite count_cons || rewrite count_app);
  change (count _ []) with 0%nat.

Lemma transform_no_remove_record (t : list event) :
  forallb is_transform t = true -> filter is_remove_error t = [].
Proof.
  apply forallb_filter_nil.
  intros [lv m|c0|d|p|s]; try destruct lv; try destruct m; try destruct c0; simpl;
    congruence.
Qed.

(** The run of the load stage on a file that cannot be removed. *)
Lemma load_step_failed_removal_runs (c : Collaborators) (p : Path) (w : World)
    (df out : DataFrame) :
  (path_exists (user_downloads_dir c) w || can_create (user_downloads_dir c) w)%bool = true ->
  on_disk p w = true ->
  gives (read_excel c p) = Return df ->
  gives (pandas_process c df) = Return out ->
  gives (db_enter c) = Return tt ->
  gives (db_table_exists c) = Return true
  \/ gives (db_table_exists c) = Return false /\ gives (db_create_table c) = Return tt ->
  gives (db_bulk_insert c) = Return tt ->
  removable p w = false ->
  gives (db_exit c) = Return tt ->
  exists w' t e,
    _load_step c (Some p) w = (Return true, w')
    /\ trace w' = (trace w ++ t)%list
    /\ files w' = files w
    /\ filter is_remove_error t = [Log ERROR (RemoveError e)]
    /\ (phases t = [Insertion; Deletion] \/ phases t = [Creation; Insertion; Deletion]).
Proof.
  intros Hdir Hdisk Hr Hp He Ht Hi Hrm Hx.
  unfold _load_step, _load_body, with_PostgreSQLHandler, len.
  unfold try_except at 1. unfold bind at 1.
  destruct (ExcelFileHandler_init_runs (user_downloads_dir c) PREFIX w)
    as (o0 & w1 & t0 & Hinit & Ht0 & Hf0 & Hq0 & Ho0).
  rewrite Hinit.
  destruct Ho0 as [[-> _]|(e0 & _ & _ & Hno)]; [|congruence].
  unfold bind at 1.
  assert (Hdisk1 : on_disk p w1 = true) by (unfold on_disk in *; now rewrite Hf0).
  destruct (process_succeeds (mkHandler (user_downloads_dir c) PREFIX) c p w1 df out
              Hdisk1 Hr Hp) as (w2 & Hproc & Hf1 & Ht1).
  rewrite Hproc. cbn [success dataframe negb].
  py_unfold. cbn -[delete_most_recent_file]. rewrite He.
  cbn -[delete_most_recent_file].
  assert (Hgone : forall w3, files w3 = files w2 -> removable p w3 = false).
  { intros w3 H3. rewrite (removable_files p w w3); [assumption|congruence]. }
  destruct Ht as [Ht|[Ht Hc]]; rewrite Ht; cbn -[delete_most_recent_file];
    rewrite ?Hc; cbn -[delete_most_recent_file];
    rewrite Hi; cbn -[delete_most_recent_file].
  all: match goal with
       | |- context [delete_most_recent_file ?h (Some ?q) ?W] =>
           destruct (delete_fails h q W (Hgone W eq_refl)) as (e & Hc' & Hdel);
           rewrite Hdel
       end.
  all: py_unfold; cbn; rewrite Hx; cbn.
  all: pose proof (transform_no_remove_record _ Hq0) as Hn0.
  all: transform_facts.
  all: eexists _, _, e; split; [reflexivity|]; cbn [trace files].
  all: rewrite Ht1, Ht0, <- !app_assoc; cbn [app].
  all: split; [reflexivity|]; split; [congruence|].
  all: repeat (rewrite filter_app || cbn [filter is_remove_error]).
  all: phases_norm.
  all: rewrite Hn0; auto.
Qed.

(** C9: the transform has succeeded on a file that the system then refuses
    to remove, the connection was opened, the table was there or was
    created, and the bulk insert returned.  Then the removal fails; its
    exception is caught by [delete_most_recent_file] and logged, once; the
    files are as they were; and [_load_step] returns [True] provided that
    the connection is released without an exception. *)
Theorem load_step_survives_failed_removal (c : Collaborators) (p : Path) (w : World)
    (df out : DataFrame) :
  (path_exists (user_downloads_dir c) w || can_create (user_downloads_dir c) w)%bool = true ->
  on_disk p w = true ->
  gives (read_excel c p) = Return df ->
  gives (pandas_process c df) = Return out ->
  gives (db_enter c) = Return tt ->
  gives (db_table_exists c) = Return true
  \/ gives (db_table_exists c) = Return false /\ gives (db_create_table c) = Return tt ->
  gives (db_bulk_insert c) = Return tt ->
  removable p w = false ->
  gives (db_exit c) = Return tt ->
  fst (_load_step c (Some p) w) = Return true
  /\ files (after (_load_step c (Some p)) w) = files w
  /\ (exists e, filter is_remove_error (emitted (_load_step c (Some p)) w)
                = [Log ERROR (RemoveError e)])
  /\ (phases (emitted (_load_step c (Some p)) w) = [Insertion; Deletion]
      \/ phases (emitted (_load_step c (Some p)) w) = [Creation; Insertion; Deletion]).
Proof.
  intros Hdir Hdisk Hr Hp He Ht Hi Hrm Hx.
  destruct (load_step_failed_removal_runs c p w df out Hdir Hdisk Hr Hp He Ht Hi Hrm Hx)
    as (w' & t & e & Hrun & Htr & Hf & Herr & Hph).
  rewrite (emitted_extends (_load_step c (Some p)) w t)
    by (unfold after; rewrite Hrun; exact Htr).
  unfold after. rewrite Hrun. cbn [fst snd]. eauto.
Qed.

Lemma load_step_stops_on_failed_transform_witness :
  _load_step bad_sheet (Some report) desk
  = (Return false, after (logger ERROR (TransformFailed (message unreadable))) desk_unread)
  /\ count is_persist (emitted (_load_step bad_sheet (Some report)) desk) = 0%nat.
Proof.
  apply (load_step_stops_on_failed_transform bad_sheet (Some report) desk desk_handled
           desk_unread (mkHandler downloads PREFIX) unreadable).
  - vm_compute. reflexivity.
  - vm_compute. reflexivity.
  - reflexivity.
Defined.

(** On a machine where the report cannot be removed the load stands. *)
Lemma load_step_survives_failed_removal_witness :
  fst (_load_step smooth (Some report) desk_locked) = Return true
  /\ files (after (_load_step smooth (Some report)) desk_locked) = files desk_locked
  /\ (exists e, filter is_remove_error (emitted (_load_step smooth (Some report)) desk_locked)
                = [Log ERROR (RemoveError e)])
  /\ (phases (emitted (_load_step smooth (Some report)) desk_locked) = [Insertion; Deletion]
      \/ phases (emitted (_load_step smooth (Some report)) desk_locked)
         = [Creation; Insertion; Deletion]).
Proof.
  apply (load_step_survives_failed_removal smooth report desk_locked
           [["2025-11-03"; "4711"]] [["2025-11-03"; "4711"]]).
  - reflexivity.
  - reflexivity.
  - reflexivity.
  - reflexivity.
  - reflexivity.
  - right. split; reflexivity.
  - reflexivity.
  - reflexivity.
  - reflexivity.
Defined.

(** What the run on [desk_locked] leaves in the trace for the removal. *)
Example load_step_locked_report :
  filter is_removal (emitted (_load_step smooth (Some report)) desk_locked)
  = [Unlink report;
     Log ERROR (RemoveError (os_error PermissionError "13" "Permission denied"
                               (str_path report)))].
Proof. vm_compute. reflexivity. Qed.

(** The [try] block does raise, for instance when the database refuses the
    rows: the stage turns that into [False] and the artifact stays. *)
Example load_step_full_disk :
  fst (_load_body full_disk (Some report) desk)
  = Raise (mkExn OtherException "could not extend file")
  /\ fst (_load_step full_disk (Some report) desk) = Return false
  /\ files (after (_load_step full_disk (Some report)) desk) = files desk.
Proof. vm_compute. repeat split. Qed.

(** Without the file nothing is loaded: [pd.read_excel] cannot open it, the
    transform fails and the database is never called. *)
Example load_step_without_report :
  fst (_load_step smooth (Some report) world0) = Return false
  /\ count is_persist (emitted (_load_step smooth (Some report)) world0) = 0%nat.
Proof. vm_compute. split; reflexivity. Qed.



(** ** Falling back to the most recent file *)

Lemma has_mtime_modified (f : File) : has_mtime f = true -> mtime f = Some (modified f).
Proof. unfold has_mtime, modified. destruct (mtime f); [reflexivity|discriminate]. Qed.

(** [max] keeps the first of the entries of greatest modification time: the
    entries listed before the chosen one are strictly older, those after it
    are not newer.  Nothing changes in the world. *)
Lemma max_by_mtime_first_newest (l : list File) (best : File) (w : World) :
  has_mtime best = true ->
  forallb has_mtime l = true ->
  exists before newest after_,
    max_by_mtime best (modified best) l w = (Return newest, w)
    /\ (best :: l = before ++ newest :: after_)%list
    /\ has_mtime newest = true
    /\ (forall g, In g before -> modified g < modified newest)
    /\ (forall g, In g after_ -> modified g <= modified newest).
Proof.
  revert best. induction l as [|f l IH]; intros best Hbest Hall.
  - exists [], best, []. cbn.
    split; [reflexivity|]. split; [reflexivity|]. split; [exact Hbest|].
    split; intros g [].
  - cbn [forallb] in Hall. apply andb_prop in Hall as [Hf Hl].
    cbn [max_by_mtime]. unfold bind, stat_st_mtime.
    rewrite (has_mtime_modified f Hf). cbn [ret].
    destruct (modified best <? modified f) eqn:Hlt.
    + apply Z.ltb_lt in Hlt.
      destruct (IH f Hf Hl) as (before & newest & after_ & Hrun & Heq & Hn & Hb & Ha).
      exists (best :: before), newest, after_. rewrite Hrun.
      split; [reflexivity|]. split; [cbn [app]; f_equal; exact Heq|].
      split; [exact Hn|]. split; [|exact Ha].
      intros g [<-|Hg]; [|now apply Hb].
      assert (Hin : In f (before ++ newest :: after_)) by (rewrite <- Heq; now left).
      apply in_app_or in Hin as [Hin|[<-|Hin]].
      * specialize (Hb f Hin). lia.
      * lia.
      * specialize (Ha f Hin). lia.
    + apply Z.ltb_ge in Hlt.
      destruct (IH best Hbest Hl) as (before & newest & after_ & Hrun & Heq & Hn & Hb & Ha).
      rewrite Hrun.
      destruct before as [|b0 before]; cbn [app] in Heq.
      * injection Heq as Hm Hl'.
        exists [], newest, (f :: after_).
        split; [reflexivity|].
        split; [cbn [app]; rewrite <- Hm, <- Hl'; reflexivity|].
        split; [exact Hn|]. split; [intros g []|].
        intros g [<-|Hg]; [rewrite <- Hm; lia | now apply Ha].
      * injection Heq as <- Hl'.
        exists (best :: f :: before), newest, after_.
        split; [reflexivity|].
        split; [cbn [app]; do 2 f_equal; exact Hl'|].
        split; [exact Hn|]. split; [|exact Ha].
        intros g [<-|[<-|Hg]].
        -- apply Hb. now left.
        -- pose proof (Hb best (or_introl eq_refl)). lia.
        -- apply Hb. now right.
Qed.

(** When [stat] does not find one of the entries, its exception leaves
    [max]; nothing changes in the world. *)
Lemma max_by_mtime_unfound (l : list File) (best : File) (key : Z) (w : World) :
  forallb has_mtime l = false ->
  exists msg, max_by_mtime best key l w = (Raise (mkExn FileNotFoundError msg), w).
Proof.
  revert best key. induction l as [|f l IH]; intros best key Hall; [discriminate|].
  cbn [forallb] in Hall. cbn [max_by_mtime]. unfold bind, stat_st_mtime, has_mtime in *.
  destruct (mtime f) as [t|]; cbn [ret andb] in *.
  - destruct (key <? t); now apply IH.
  - eexists. reflexivity.
Qed.

(** What [_find_most_recent_file] does with what the pattern selects. *)
Lemma find_most_recent_file_newest (self : ExcelFileHandler) (w : World)
    (found : list File) :
  fst (glob self w) = Return found ->
  found <> [] ->
  forallb has_mtime found = true ->
  exists before newest after_,
    _find_most_recent_file self w = (Return (path newest), w)
    /\ (found = before ++ newest :: after_)%list
    /\ has_mtime newest = true
    /\ (forall g, In g before -> modified g < modified newest)
    /\ (forall g, In g after_ -> modified g <= modified newest).
Proof.
  intros Hglob Hne Hall.
  assert (Hrun : glob self w = (Return found, w)).
  { revert Hglob. unfold glob. destruct (plain (prefix self)); cbn; congruence. }
  unfold _find_most_recent_file, bind at 1. rewrite Hrun.
  destruct found as [|f rest]; [congruence|].
  cbn [forallb] in Hall. apply andb_prop in Hall as [Hf Hrest].
  destruct (max_by_mtime_first_newest rest f w Hf Hrest)
    as (before & newest & after_ & Hmax & Heq & Hn & Hb & Ha).
  exists before, newest, after_.
  unfold bind, stat_st_mtime. rewrite (has_mtime_modified f Hf). cbn [ret].
  rewrite Hmax. auto.
Qed.

(** When [stat] does not find one of the selected entries the search stops
    on its [FileNotFoundError], and nothing changes. *)
Lemma find_most_recent_file_unfound (self : ExcelFileHandler) (w : World)
    (found : list File) :
  fst (glob self w) = Return found ->
  forallb has_mtime found = false ->
  exists msg, _find_most_recent_file self w = (Raise (mkExn FileNotFoundError msg), w).
Proof.
  intros Hglob Hall.
  assert (Hrun : glob self w = (Return found, w)).
  { revert Hglob. unfold glob. destruct (plain (prefix self)); cbn; congruence. }
  unfold _find_most_recent_file, bind at 1. rewrite Hrun.
  destruct found as [|f rest]; [discriminate Hall|].
  cbn [forallb] in Hall. unfold bind, stat_st_mtime.
  destruct (mtime f) as [t|] eqn:Hf.
  - cbn [ret]. unfold has_mtime at 1 in Hall. rewrite Hf in Hall. cbn [andb] in Hall.
    destruct (max_by_mtime_unfound rest f t w Hall) as [msg Hmax].
    rewrite Hmax. eexists. reflexivity.
  - eexists. reflexivity.
Qed.

Lemma newest_is_greatest (found before after_ : list File) (newest g : File) :
  (found = before ++ newest :: after_)%list ->
  (forall g, In g before -> modified g < modified newest) ->
  (forall g, In g after_ -> modified g <= modified newest) ->
  In g found -> modified g <= modified newest.
Proof.
  intros -> Hb Ha Hg. apply in_app_or in Hg as [Hg|[<-|Hg]].
  - specialize (Hb g Hg). lia.
  - lia.
  - now apply Ha.
Qed.

Lemma candidates_In (self : ExcelFileHandler) (w : World) (f : File) :
  In f (candidates self w) ->
  In f (files w)
  /\ parent (path f) = directory self
  /\ String.prefix (prefix self) (name (path f)) = true.
Proof.
  unfold candidates. destruct (is_dir (directory self) w); [|intros []].
  intros H. apply filter_In in H as [Hin Hm].
  unfold matching in Hm. apply andb_prop in Hm as [Hd Hp].
  apply String.eqb_eq in Hd. auto.
Qed.

Lemma Path_eqb_refl (p : Path) : Path_eqb p p = true.
Proof. unfold Path_eqb. now rewrite !String.eqb_refl. Qed.

Lemma on_disk_In (f : File) (w : World) :
  In f (files w) -> has_mtime f = true -> on_disk (path f) w = true.
Proof.
  intros Hin Hm. unfold on_disk. apply existsb_exists. exists f.
  now rewrite Path_eqb_refl, Hm.
Qed.

(** C10, as the code has it: called without a path,
    [process_most_recent_file] and [delete_most_recent_file] search the
    directory of the handler (here for a prefix without glob metacharacters,
    as [PREFIX] is).  When no entry of the directory starts with the prefix,
    the first returns a result that is not a success and the second returns
    [False]; neither raises, reads a file or removes one.  When there are
    such entries and [stat] finds them all, both act on the entry of
    greatest modification time among them: the transform is the one of that
    file (it reads it, and succeeds with what pandas makes of it), and the
    removal unlinks that file and no other.  When [stat] does not find one
    of them, both report a failure as if there were no file. *)
Theorem fallback_to_most_recent (self : ExcelFileHandler) (c : Collaborators) (w : World) :
  plain (prefix self) = true ->
  (candidates self w = [] ->
     (exists msg,
        fst (process_most_recent_file self c None w) = Return (mkResult false msg None))
     /\ fst (delete_most_recent_file self None w) = Return false
     /\ filter is_persist (emitted (delete_most_recent_file self None) w) = []
     /\ files (after (delete_most_recent_file self None) w) = files w
     /\ emitted (process_most_recent_file self c None) w
        = [Log ERROR (NoFileWithPrefix (prefix self));
           Log ERROR (ProcessRecentError
                        (mkExn FileNotFoundError
                           ("Nenhum arquivo com prefixo " ++ prefix self
                            ++ " encontrado em " ++ directory self)))])
  /\ (candidates self w <> [] ->
      forallb has_mtime (candidates self w) = true ->
      exists newest,
        In newest (files w)
        /\ parent (path newest) = directory self
        /\ String.prefix (prefix self) (name (path newest)) = true
        /\ (forall g, In g (files w) -> matching self g = true ->
              modified g <= modified newest)
        /\ process_most_recent_file self c None w
           = process_most_recent_file self c (Some (path newest)) w
        /\ (forall df out,
              gives (read_excel c (path newest)) = Return df ->
              gives (pandas_process c df) = Return out ->
              fst (process_most_recent_file self c None w)
              = Return (mkResult true "Arquivo processado com sucesso" (Some out))
              /\ filter is_transform (emitted (process_most_recent_file self c None) w)
                 = [Log INFO (ProcessingTarget (name (path newest)));
                    Call (pd_read_excel (path newest)); Call process_dataframe;
                    Log INFO ExcelProcessed])
        /\ filter is_persist (emitted (delete_most_recent_file self None) w)
           = [Unlink (path newest)]
        /\ fst (delete_most_recent_file self None w) = Return (removable (path newest) w)
        /\ files (after (delete_most_recent_file self None) w)
           = if removable (path newest) w
             then filter (fun f => negb (Path_eqb (path f) (path newest))) (files w)
             else files w)
  /\ (forallb has_mtime (candidates self w) = false ->
      (exists msg,
         fst (process_most_recent_file self c None w) = Return (mkResult false msg None))
      /\ (exists e,
            emitted (process_most_recent_file self c None) w
            = [Log ERROR (ProcessRecentError e)])
      /\ fst (delete_most_recent_file self None w) = Return false
      /\ filter is_persist (emitted (delete_most_recent_file self None) w) = []
      /\ files (after (delete_most_recent_file self None) w) = files w).
Proof.
  intros Hplain.
  assert (Hglob : glob self w = (Return (candidates self w), w))
    by (unfold glob; now rewrite Hplain).
  split; [|split].
  - intros Hnone. rewrite Hnone in Hglob.
    unfold emitted. handler_unfold. unfold _find_most_recent_file. py_unfold.
    rewrite Hglob. cbn -[String.append]. trace_done.
    repeat split. eexists. reflexivity.
  - intros Hne Hall.
    destruct (find_most_recent_file_newest self w (candidates self w))
      as (before & newest & after_ & Hfind & Heq & Hn & Hb & Ha);
      [now rewrite Hglob | assumption | assumption |].
    assert (Hin : In newest (candidates self w))
      by (rewrite Heq; apply in_or_app; right; now left).
    destruct (candidates_In self w newest Hin) as (Hfiles & Hdir & Hpre).
    assert (Hsame : process_most_recent_file self c None w
                    = process_most_recent_file self c (Some (path newest)) w).
    { unfold process_most_recent_file, target_of, try_except, bind at 1.
      rewrite Hfind. reflexivity. }
    exists newest. split; [assumption|]. split; [assumption|]. split; [assumption|].
    split; [|split; [exact Hsame|split; [|split; [|split]]]].
    + intros g Hg Hgm.
      apply (newest_is_greatest (candidates self w) before after_ newest g Heq Hb Ha).
      unfold candidates in *. destruct (is_dir (directory self) w); [|destruct Hin].
      apply filter_In. auto.
    + intros df out Hr Hp.
      destruct (process_succeeds self c (path newest) w df out
                  (on_disk_In newest w Hfiles Hn) Hr Hp) as (w' & Hrun & _ & Ht).
      unfold emitted, after. rewrite Hsame, Hrun. cbn [fst snd]. split; [reflexivity|].
      rewrite Ht, skipn_length_app. reflexivity.
    + unfold emitted, delete_most_recent_file, target_of, try_except, bind at 1.
      unfold after, delete_most_recent_file, target_of, try_except, bind at 1.
      rewrite Hfind. handler_unfold. cbn -[String.append skipn].
      destruct (find _ (files w)) as [g|]; [destruct (locked g)|];
        cbn -[String.append skipn]; trace_done; reflexivity.
    + unfold delete_most_recent_file, target_of, try_except, bind at 1.
      rewrite Hfind. unfold removable. handler_unfold. cbn -[String.append].
      destruct (find _ (files w)) as [g|]; [destruct (locked g)|]; reflexivity.
    + unfold after, delete_most_recent_file, target_of, try_except, bind at 1.
      rewrite Hfind. unfold removable. handler_unfold. cbn -[String.append].
      destruct (find _ (files w)) as [g|]; [destruct (locked g)|]; reflexivity.
  - intros Hall.
    destruct (find_most_recent_file_unfound self w (candidates self w))
      as (msg & Hfind); [now rewrite Hglob | assumption |].
    unfold emitted, after, process_most_recent_file, delete_most_recent_file, target_of,
      try_except, bind.
    rewrite !Hfind. py_unfold. cbn -[String.append skipn]. trace_done.
    repeat split; eexists; reflexivity.
Qed.

(** On [shelf], where the newest entry with the prefix is the report. *)
Lemma fallback_to_most_recent_witness :
  (candidates (mkHandler downloads PREFIX) shelf = [] ->
     (exists msg,
        fst (process_most_recent_file (mkHandler downloads PREFIX) smooth None shelf)
        = Return (mkResult false msg None))
     /\ fst (delete_most_recent_file (mkHandler downloads PREFIX) None shelf) = Return false
     /\ filter is_persist
          (emitted (delete_most_recent_file (mkHandler downloads PREFIX) None) shelf) = []
     /\ files (after (delete_most_recent_file (mkHandler downloads PREFIX) None) shelf)
        = files shelf
     /\ emitted (process_most_recent_file (mkHandler downloads PREFIX) smooth None) shelf
        = [Log ERROR (NoFileWithPrefix (prefix (mkHandler downloads PREFIX)));
           Log ERROR (ProcessRecentError
                        (mkExn FileNotFoundError
                           ("Nenhum arquivo com prefixo "
                            ++ prefix (mkHandler downloads PREFIX)
                            ++ " encontrado em "
                            ++ directory (mkHandler downloads PREFIX))))])
  /\ (candidates (mkHandler downloads PREFIX) shelf <> [] ->
      forallb has_mtime (candidates (mkHandler downloads PREFIX) shelf) = true ->
      exists newest,
        In newest (files shelf)
        /\ parent (path newest) = directory (mkHandler downloads PREFIX)
        /\ String.prefix (prefix (mkHandler downloads PREFIX)) (name (path newest)) = true
        /\ (forall g, In g (files shelf) -> matching (mkHandler downloads PREFIX) g = true ->
              modified g <= modified newest)
        /\ process_most_recent_file (mkHandler downloads PREFIX) smooth None shelf
           = process_most_recent_file (mkHandler downloads PREFIX) smooth
               (Some (path newest)) shelf
        /\ (forall df out,
              gives (read_excel smooth (path newest)) = Return df ->
              gives (pandas_process smooth df) = Return out ->
              fst (process_most_recent_file (mkHandler downloads PREFIX) smooth None shelf)
              = Return (mkResult true "Arquivo processado com sucesso" (Some out))
              /\ filter is_transform
                   (emitted (process_most_recent_file (mkHandler downloads PREFIX) smooth
                               None) shelf)
                 = [Log INFO (ProcessingTarget (name (path newest)));
                    Call (pd_read_excel (path newest)); Call process_dataframe;
                    Log INFO ExcelProcessed])
        /\ filter is_persist
             (emitted (delete_most_recent_file (mkHandler downloads PREFIX) None) shelf)
           = [Unlink (path newest)]
        /\ fst (delete_most_recent_file (mkHandler downloads PREFIX) None shelf)
           = Return (removable (path newest) shelf)
        /\ files (after (delete_most_recent_file (mkHandler downloads PREFIX) None) shelf)
           = if removable (path newest) shelf
             then filter (fun f => negb (Path_eqb (path f) (path newest))) (files shelf)
             else files shelf)
  /\ (forallb has_mtime (candidates (mkHandler downloads PREFIX) shelf) = false ->
      (exists msg,
         fst (process_most_recent_file (mkHandler downloads PREFIX) smooth None shelf)
         = Return (mkResult false msg None))
      /\ (exists e,
            emitted (process_most_recent_file (mkHandler downloads PREFIX) smooth None) shelf
            = [Log ERROR (ProcessRecentError e)])
      /\ fst (delete_most_recent_file (mkHandler downloads PREFIX) None shelf) = Return false
      /\ filter is_persist
           (emitted (delete_most_recent_file (mkHandler downloads PREFIX) None) shelf) = []
      /\ files (after (delete_most_recent_file (mkHandler downloads PREFIX) None) shelf)
         = files shelf).
Proof.
  apply (fallback_to_most_recent (mkHandler downloads PREFIX) smooth shelf).
  reflexivity.
Defined.

(** On [shelf] the fallback reads and removes the report modified last. *)
Example fallback_takes_newest_report :
  process_most_recent_file (mkHandler downloads PREFIX) smooth None shelf
  = (Return (mkResult true "Arquivo processado com sucesso" (Some [["2025-11-03"; "4711"]])),
     after (logger INFO (ProcessingTarget (name report)) ;;
            emit (Call (pd_read_excel report)) ;; emit (Call process_dataframe) ;;
            logger INFO ExcelProcessed) shelf)
  /\ emitted (delete_most_recent_file (mkHandler downloads PREFIX) None) shelf
     = [Unlink report; Log INFO (FileRemoved None)]
  /\ files (after (delete_most_recent_file (mkHandler downloads PREFIX) None) shelf)
     = [older; stranger].
Proof. vm_compute. repeat split. Qed.

Example fallback_without_file :
  process_most_recent_file (mkHandler downloads PREFIX) smooth None world0
  = (Return (mkResult false
       "Erro ao processar arquivo mais recente: Nenhum arquivo com prefixo CONSULTA_TLP_PCP_LP_FSP_CS encontrado em /home/user/Downloads"
       None),
     mkWorld 0 [] [] [] no_glob
       [Log ERROR (NoFileWithPrefix PREFIX);
        Log ERROR (ProcessRecentError
          (mkExn FileNotFoundError
             "Nenhum arquivo com prefixo CONSULTA_TLP_PCP_LP_FSP_CS encontrado em /home/user/Downloads"))]).
Proof. reflexivity. Qed.

(** On [haunted] the fallback does not reach the newest report.  Entries of
    the directory start with the prefix, and the newest of those that [stat]
    finds is the report; yet neither operation acts on it, because [stat]
    stops at the link whose target is gone: the transform reports a failure
    without reading any file, and the removal returns [False] and removes
    nothing. *)
Lemma fallback_stops_at_dangling_link :
  candidates (mkHandler downloads PREFIX) haunted = [older; ghost; newer]
  /\ forallb (fun g => modified g <=? modified newer)
       (candidates (mkHandler downloads PREFIX) haunted) = true
  /\ process_most_recent_file (mkHandler downloads PREFIX) smooth None haunted
     = (Return (mkResult false
                  ("Erro ao processar arquivo mais recente: "
                   ++ str_e (os_error FileNotFoundError "2" "No such file or directory"
                               (str_path (path ghost))))
                  None),
        after (logger ERROR
                 (ProcessRecentError
                    (os_error FileNotFoundError "2" "No such file or directory"
                       (str_path (path ghost))))) haunted)
  /\ delete_most_recent_file (mkHandler downloads PREFIX) None haunted
     = (Return false,
        after (logger ERROR
                 (RemoveError (os_error FileNotFoundError "2" "No such file or directory"
                                 (str_path (path ghost))))) haunted).
Proof. vm_compute. repeat split. Qed.
(** ** The elapsed time *)

(** A property checked on every number below a bound holds of each. *)
Lemma below_bound (f : Z -> bool) (n : nat) :
  forallb (fun k => f (Z.of_nat k)) (seq 0 n) = true ->
  forall v, 0 <= v < Z.of_nat n -> f v = true.
Proof.
  intros Hall v Hv.
  rewrite forallb_forall in Hall.
  rewrite <- (Z2Nat.id v) by lia. apply Hall, in_seq. lia.
Qed.

Lemma fmt_02d_two_digits (v : Z) : 0 <= v < 100 -> fmt_02d v = two_digits v.
Proof.
  intros Hv. apply String.eqb_eq.
  apply (below_bound (fun v => String.eqb (fmt_02d v) (two_digits v)) 100); [|lia].
  vm_compute. reflexivity.
Qed.

Lemma is_digit_digit (v : Z) : 0 <= v < 10 -> is_digit (digit v) = true.
Proof.
  intros Hv.
  apply (below_bound (fun v => is_digit (digit v)) 10); [|lia].
  vm_compute. reflexivity.
Qed.

(** Below ten hours the text has seven characters and [zfill] adds the
    leading zero; from ten hours on it has eight already. *)
Lemma zfill_hours (hh : Z) (a b c d : ascii) :
  0 <= hh < 24 ->
  zfill 8 (fmt_d hh ++ ":" ++ String a (String b "") ++ ":" ++ String c (String d ""))
  = two_digits hh ++ ":" ++ String a (String b "") ++ ":" ++ String c (String d "").
Proof.
  intros Hh. apply String.eqb_eq. revert hh Hh.
  apply (below_bound
           (fun hh =>
              String.eqb
                (zfill 8 (fmt_d hh ++ ":" ++ String a (String b "") ++ ":"
                          ++ String c (String d "")))
                (two_digits hh ++ ":" ++ String a (String b "") ++ ":"
                 ++ String c (String d ""))) 24).
  cbn -[String.eqb]. rewrite !String.eqb_refl. reflexivity.
Qed.

Lemma readable_time_hh_mm_ss (total_time : Z) :
  0 <= total_time < 86400 * ticks_per_second ->
  readable_time total_time = hh_mm_ss (int_seconds total_time)
  /\ is_hh_mm_ss (readable_time total_time) = true.
Proof.
  intros Ht. unfold readable_time, int_seconds, ticks_per_second in *.
  set (n := total_time ÷ 1000).
  assert (Hn : 0 <= n < 86400).
  { subst n. rewrite Z.quot_div_nonneg by lia.
    split; [apply Z.div_pos; lia | apply Z.div_lt_upper_bound; lia]. }
  assert (Heq : zfill 8 (timedelta_str n) = hh_mm_ss n).
  { unfold timedelta_str, hh_mm_ss.
    rewrite (Z.div_small n 86400), (Z.mod_small n 86400) by lia.
    cbn [Z.eqb].
    rewrite Z.div_div by lia. change (60 * 60) with 3600.
    rewrite !fmt_02d_two_digits
      by (try apply Z.mod_pos_bound; pose proof (Z.mod_pos_bound n 60);
          pose proof (Z.mod_pos_bound (n / 60) 60); lia).
    unfold two_digits at 1 2. apply zfill_hours.
    split; [apply Z.div_pos; lia | apply Z.div_lt_upper_bound; lia]. }
  rewrite Heq. split; [reflexivity|].
  unfold hh_mm_ss, two_digits, is_hh_mm_ss.
  cbn [String.append list_ascii_of_string].
  assert (Hh : 0 <= n / 3600 < 24)
    by (split; [apply Z.div_pos; lia | apply Z.div_lt_upper_bound; lia]).
  pose proof (Z.mod_pos_bound (n / 60) 60 ltac:(lia)) as Hm.
  pose proof (Z.mod_pos_bound n 60 ltac:(lia)) as Hs.
  rewrite !is_digit_digit; [reflexivity| | | | | |];
    first [ apply Z.mod_pos_bound; lia
          | split; [apply Z.div_pos; lia | apply Z.div_lt_upper_bound; lia] ].
Qed.

(** ** The retry loop *)

Lemma for_each_app {A} (l1 l2 : list A) (body : A -> Py unit) (w : World) :
  for_each (l1 ++ l2) body w
  = match for_each l1 body w with
    | (Return _, w1) => for_each l2 body w1
    | (Raise e, w1) => (Raise e, w1)
    | (Exit s, w1) => (Exit s, w1)
    end.
Proof.
  revert w. induction l1 as [|x l1 IH]; intros w; simpl; [reflexivity|].
  unfold bind. destruct (body x w) as [[[]|e|s] w']; auto.
Qed.

Lemma seq_split_at (a n : nat) :
  (1 <= a <= n)%nat -> seq 1 n = (seq 1 (a - 1) ++ a :: seq (S a) (n - a))%list.
Proof.
  intros Ha.
  replace n with ((a - 1) + S (n - a))%nat at 1 by lia.
  rewrite seq_app. simpl. replace (S (a - 1)) with a by lia. reflexivity.
Qed.

(** An attempt whose three stages succeed logs the elapsed time and leaves
    the process with status 0. *)
Lemma attempt_success (self : MainOrchestrator) (c : Collaborators) (start_time : Z)
    (attempt : nat) (w w2 w3 w4 : World) (connected : option bool) (p : Path) :
  _manage_vpn_connection self c
    (after (logger INFO PipelineStarting ;;
            logger INFO (AttemptOf attempt (max_retries self))) w)
  = (Return connected, w2) ->
  truthy connected = true ->
  _extract_step c w2 = (Return (true, Some p), w3) ->
  _load_step c (Some p) w3 = (Return true, w4) ->
  attempt_body self c start_time attempt w
  = (Exit 0, after (logger INFO (PipelineDone (readable_time (clock w4 - start_time)))) w4).
Proof.
  intros Hvpn Hconn Hext Hload.
  unfold attempt_body, try_except, bind, after, logger, emit, ret, perf_counter, sys_exit
    in *.
  cbn [snd] in Hvpn. cbv beta iota. rewrite Hvpn. cbv beta iota.
  rewrite Hconn. cbn [negb]. cbv beta iota.
  rewrite Hext. cbn [negb is_none orb]. cbv beta iota.
  rewrite Hload. reflexivity.
Qed.

(** C7, as the code has it: when the load stage returns [True] on attempt
    [a] (the attempts before it having ended without success), the run ends
    there: the world it leaves is the one the load stage left plus the record
    of the elapsed time, and the exit status is 0.  The elapsed time is
    printed as [str(timedelta(seconds=...)).zfill(8)], which is the
    zero-padded [HH:MM:SS] as long as the run took less than a day. *)
Theorem success_ends_the_run (self : MainOrchestrator) (world : nat -> Collaborators)
    (a : nat) (w w1 w2 w3 w4 : World) (connected : option bool) (p : Path) :
  (1 <= a <= max_retries self)%nat ->
  for_each (seq 1 (a - 1))
    (fun attempt => attempt_body self (world attempt) (clock w) attempt) w
  = (Return tt, w1) ->
  _manage_vpn_connection self (world a)
    (after (logger INFO PipelineStarting ;;
            logger INFO (AttemptOf a (max_retries self))) w1)
  = (Return connected, w2) ->
  truthy connected = true ->
  _extract_step (world a) w2 = (Return (true, Some p), w3) ->
  _load_step (world a) (Some p) w3 = (Return true, w4) ->
  run_pipeline self world w
  = (Exit 0, after (logger INFO (PipelineDone (readable_time (clock w4 - clock w)))) w4)
  /\ (0 <= clock w4 - clock w < 86400 * ticks_per_second ->
      readable_time (clock w4 - clock w) = hh_mm_ss (int_seconds (clock w4 - clock w))
      /\ is_hh_mm_ss (readable_time (clock w4 - clock w)) = true).
Proof.
  intros Ha Hbefore Hvpn Hconn Hext Hload.
  split; [|apply readable_time_hh_mm_ss].
  unfold run_pipeline, bind at 1, perf_counter.
  unfold bind at 1.
  rewrite (seq_split_at a (max_retries self) Ha), for_each_app, Hbefore.
  cbn [for_each]. unfold bind at 1.
  now rewrite (attempt_success self (world a) (clock w) a w1 w2 w3 w4 connected p).
Qed.

Lemma success_ends_the_run_witness :
  run_pipeline office (fun _ => smooth) desk
  = (Exit 0,
     after (logger INFO (PipelineDone (readable_time (clock desk_loaded - clock desk))))
       desk_loaded)
  /\ (0 <= clock desk_loaded - clock desk < 86400 * ticks_per_second ->
      readable_time (clock desk_loaded - clock desk)
      = hh_mm_ss (int_seconds (clock desk_loaded - clock desk))
      /\ is_hh_mm_ss (readable_time (clock desk_loaded - clock desk)) = true).
Proof.
  apply (success_ends_the_run office (fun _ => smooth) 1 desk desk desk_connected
           desk_extracted desk_loaded (Some true) report).
  - unfold office. simpl. lia.
  - vm_compute. reflexivity.
  - vm_compute. reflexivity.
  - reflexivity.
  - vm_compute. reflexivity.
  - vm_compute. reflexivity.
Defined.

(** The VPN adapter never waits by itself. *)
Lemma manage_vpn_connection_runs (self : MainOrchestrator) (c : Collaborators) (w : World) :
  exists o w' t,
    _manage_vpn_connection self c w = (o, w')
    /\ trace w' = (trace w ++ t)%list
    /\ count is_sleep t = 0%nat.
Proof.
  unfold _manage_vpn_connection, wait_for_to_thread. py_unfold.
  destruct (vpn_connect c) as [b|].
  all: repeat (cbn -[String.append Z.mul];
               match goal with
               | |- context [match cls ?e with _ => _ end] => destruct (cls e)
               | _ => py_case
               end).
  all: cbn -[String.append Z.mul].
  all: eexists _, _, _; split; [reflexivity|]; split; [trace_ext|].
  all: reflexivity.
Qed.

(** An attempt whose VPN stage fails (a falsy value, or an exception
    derived from [Exception]) ends in the [except] clause, which waits: the
    guard [attempt <= max_retries] holds of every attempt that the loop
    makes. *)
Lemma attempt_vpn_failure (self : MainOrchestrator) (c : Collaborators) (start_time : Z)
    (attempt : nat) (w : World) :
  (attempt <= max_retries self)%nat ->
  (forall w0, vpn_failed (fst (_manage_vpn_connection self c w0)) = true) ->
  exists w' t,
    attempt_body self c start_time attempt w = (Return tt, w')
    /\ trace w' = (trace w ++ t)%list
    /\ count is_sleep t = 1%nat.
Proof.
  intros Hle Hdown. apply Nat.leb_le in Hle.
  unfold attempt_body, try_except, bind, logger, emit, raise, ret, asyncio_sleep, advance.
  cbv beta iota.
  match goal with
  | |- context [_manage_vpn_connection self c ?w0] =>
      destruct (manage_vpn_connection_runs self c w0) as (o & w1 & t1 & Hrun & Ht & Hs);
      specialize (Hdown w0); rewrite Hrun in *; cbn [fst vpn_failed] in Hdown
  end.
  cbn [trace] in Ht.
  destruct o as [v|e|s]; cbn [vpn_failed] in Hdown;
    [apply negb_true_iff in Hdown; rewrite Hdown; cbn [negb]
    |rewrite Hdown
    |discriminate Hdown].
  all: cbv beta iota; cbn [cls is_Exception]; rewrite Hle; cbv beta iota.
  all: eexists _, _; split; [reflexivity|]; cbn [trace]; rewrite Ht.
  all: split; [rewrite <- !app_assoc; cbn [app]; reflexivity|].
  all: change (?a :: ?b :: (t1 ++ ?l)%list) with ([a; b] ++ t1 ++ l)%list.
  all: rewrite !count_app, Hs; reflexivity.
Qed.

Lemma failing_attempts (self : MainOrchestrator) (world : nat -> Collaborators)
    (start_time : Z) (l : list nat) :
  (forall k, In k l -> (k <= max_retries self)%nat) ->
  (forall k w0, vpn_failed (fst (_manage_vpn_connection self (world k) w0)) = true) ->
  forall w, exists w' t,
    for_each l (fun attempt => attempt_body self (world attempt) start_time attempt) w
    = (Return tt, w')
    /\ trace w' = (trace w ++ t)%list
    /\ count is_sleep t = List.length l.
Proof.
  intros Hle Hdown.
  induction l as [|k l IH]; intros w.
  - exists w, []. repeat split. symmetry. apply app_nil_r.
  - destruct (attempt_vpn_failure self (world k) start_time k w) as (w1 & t1 & H1 & Ht1 & Hs1).
    + apply Hle. now left.
    + apply Hdown.
    + destruct (IH (fun k' Hk' => Hle k' (or_intror Hk')) w1) as (w2 & t2 & H2 & Ht2 & Hs2).
      exists w2, (t1 ++ t2)%list.
      cbn [for_each]. unfold bind at 1. rewrite H1, H2.
      repeat split.
      * now rewrite Ht2, Ht1, app_assoc.
      * rewrite count_app, Hs1, Hs2. reflexivity.
Qed.

(** C1 (what the code does): when the VPN stage fails on every attempt (it
    hands back a falsy value, or raises an exception derived from
    [Exception]), the run ends with exit status 1 after waiting once per
    attempt, the last one included: [max_retries] waits, not
    [max_retries - 1]. *)
Theorem run_pipeline_waits_after_every_failure (self : MainOrchestrator)
    (world : nat -> Collaborators) (w : World) :
  (forall k w0, vpn_failed (fst (_manage_vpn_connection self (world k) w0)) = true) ->
  fst (run_pipeline self world w) = Exit 1
  /\ count is_sleep (emitted (run_pipeline self world) w) = max_retries self.
Proof.
  intros Hdown.
  destruct (failing_attempts self world (clock w) (seq 1 (max_retries self)))
    with (w := w) as (w' & t & Hloop & Ht & Hs).
  - intros k Hk. apply in_seq in Hk. lia.
  - exact Hdown.
  - assert (Hrun : run_pipeline self world w
                   = (Exit 1, after (logger CRITICAL DefinitiveFailure) w')).
    { unfold run_pipeline, bind at 1, perf_counter. unfold bind at 1.
      rewrite Hloop. reflexivity. }
    unfold emitted, after at 1. rewrite Hrun. split; [reflexivity|].
    unfold after, logger, emit. cbn [snd trace].
    rewrite Ht, <- app_assoc, skipn_length_app, count_app, Hs, length_seq.
    cbn. lia.
Qed.

Lemma run_pipeline_waits_after_every_failure_witness :
  fst (run_pipeline office (fun _ => vpn_down) desk) = Exit 1
  /\ count is_sleep (emitted (run_pipeline office (fun _ => vpn_down)) desk)
     = max_retries office.
Proof.
  apply (run_pipeline_waits_after_every_failure office (fun _ => vpn_down) desk).
  intros k w0. reflexivity.
Defined.

(** The other way to fail: a load stage that returns [False] raises nothing,
    so the loop goes straight to the next attempt, without any wait. *)
Example run_pipeline_no_wait_after_failed_load :
  fst (run_pipeline office (fun _ => bad_sheet) desk) = Exit 1
  /\ count is_sleep (emitted (run_pipeline office (fun _ => bad_sheet)) desk) = 0%nat.
Proof. vm_compute. split; reflexivity. Qed.

(** A run that takes a day or more is not printed as [HH:MM:SS]. *)
Lemma day_long_run_is_not_hh_mm_ss :
  fst (run_pipeline office (fun _ => slow_portal) desk) = Exit 0
  /\ last (trace (after (run_pipeline office (fun _ => slow_portal)) desk))
       (Log INFO PipelineStarting)
     = Log INFO (PipelineDone "1 day, 0:00:00")
  /\ is_hh_mm_ss "1 day, 0:00:00" = false.
Proof. vm_compute. repeat split. Qed.

(** * Further properties *)

(** ** The VPN adapter *)

(** Takes apart what is known, and closes a goal made of conjunctions,
    disjunctions and witnesses with it. *)
Ltac take_apart :=
  repeat match goal with
         | H : _ /\ _ |- _ => destruct H
         | H : _ \/ _ |- _ => destruct H
         | H : exists _, _ |- _ => destruct H
         | H : Completes _ = Completes _ |- _ => injection H as H; subst
         | H : (_ <=? _) = true |- _ => apply Z.leb_le in H
         | H : (_ <=? _) = false |- _ => apply Z.leb_gt in H
         | H : (_ <? _) = true |- _ => apply Z.ltb_lt in H
         | H : (_ <? _) = false |- _ => apply Z.ltb_ge in H
         end.

Ltac put_together :=
  first [ eassumption | reflexivity | discriminate | congruence | lia
        | apply Z.ltb_lt; lia
        | split; put_together
        | eexists; put_together
        | left; solve [put_together]
        | right; solve [put_together] ].

(** What [_manage_vpn_connection] hands back, case by case.  [True] exactly
    when the manager was constructed, the deadline is positive and
    [connect_with_fallback] came back within it with a true status; [None]
    exactly when it came back like that with a false status; [False]
    exactly when the wait ended with the deadline, or the connector raised
    an exception derived from [Exception]; an exception exactly when the
    constructor raised it, or the connector did and it does not derive from
    [Exception]; and [SystemExit] exactly when one of the two left that way. *)
Theorem vpn_true_iff (self : MainOrchestrator) (c : Collaborators) (w : World) :
  (fst (_manage_vpn_connection self c w) = Return (Some true) <-> vpn_came_up self c)
  /\ (fst (_manage_vpn_connection self c w) = Return None
      <-> exists msg, connector_gives self c (Return (false, msg)))
  /\ (fst (_manage_vpn_connection self c w) = Return (Some false)
      <-> deadline_hit self c
          \/ exists e, is_Exception (cls e) = true /\ connector_gives self c (Raise e))
  /\ (forall e,
        fst (_manage_vpn_connection self c w) = Raise e
        <-> gives (vpn_init c) = Raise e
            \/ is_Exception (cls e) = false /\ connector_gives self c (Raise e))
  /\ (forall s,
        fst (_manage_vpn_connection self c w) = Exit s
        <-> gives (vpn_init c) = Exit s \/ connector_gives self c (Exit s)).
Proof.
  unfold vpn_came_up, connector_gives, deadline_hit, overdue, _manage_vpn_connection,
    wait_for_to_thread.
  py_unfold. unfold ticks_per_second.
  destruct (gives (vpn_init c)) as [[]|e0|s0] eqn:Hinit; cbn -[Z.mul].
  2, 3: repeat split; intros; take_apart; put_together.
  destruct (vpn_switch_timeout self + 10 <=? 0) eqn:Hpos; cbn -[Z.mul].
  { repeat split; intros; take_apart; put_together. }
  destruct (vpn_connect c) as [b|] eqn:Hconn; cbn -[Z.mul].
  2: { repeat split; intros; take_apart; put_together. }
  destruct (takes b <=? (vpn_switch_timeout self + 10) * 1000) eqn:Hle; cbn -[Z.mul].
  2: { repeat split; intros; take_apart; put_together. }
  destruct (gives b) as [[[] msg]|e|s] eqn:Hb; cbn -[Z.mul].
  1, 2, 4: repeat split; intros; take_apart; put_together.
  destruct (is_Exception (cls e)) eqn:Hc.
  - destruct (cls e) eqn:Hk; try discriminate Hc; cbn -[Z.mul].
    all: repeat split; intros; take_apart; try put_together.
    all: right; exists e; rewrite Hk; put_together.
  - cbn -[Z.mul]. repeat split; intros; take_apart; put_together.
Qed.

(** Once the manager is constructed, a fault of [connect_with_fallback]
    that derives from [Exception] never leaves the adapter: it becomes
    [False] with one record of critical severity ([TimeoutError] has a
    record of its own, any other exception is printed in the record).  An
    exception that does not derive from [Exception] passes both [except]
    clauses and leaves the adapter without any record.  With a deadline that
    is not positive the connector is not even called: the wait times out at
    once. *)
Theorem vpn_contains_connector_faults (self : MainOrchestrator) (c : Collaborators)
    (w : World) :
  gives (vpn_init c) = Return tt ->
  (vpn_switch_timeout self + 10 <= 0 ->
   fst (_manage_vpn_connection self c w) = Return (Some false)
   /\ emitted (_manage_vpn_connection self c) w
      = [Call VPNConnectionManager_init; Log CRITICAL VpnTimeout])
  /\ (forall b e,
        0 < vpn_switch_timeout self + 10 ->
        vpn_connect c = Completes b ->
        takes b <= (vpn_switch_timeout self + 10) * ticks_per_second ->
        gives b = Raise e ->
        if is_Exception (cls e)
        then fst (_manage_vpn_connection self c w) = Return (Some false)
             /\ emitted (_manage_vpn_connection self c) w
                = [Call VPNConnectionManager_init; Call connect_with_fallback;
                   Log CRITICAL (match cls e with
                                 | TimeoutError => VpnTimeout
                                 | _ => VpnUnexpected e
                                 end)]
        else fst (_manage_vpn_connection self c w) = Raise e
             /\ emitted (_manage_vpn_connection self c) w
                = [Call VPNConnectionManager_init; Call connect_with_fallback]).
Proof.
  intros Hinit.
  unfold emitted, _manage_vpn_connection, wait_for_to_thread. py_unfold.
  cbn -[Z.mul]. rewrite Hinit. cbn -[Z.mul]. split.
  - intros Hle. apply Z.leb_le in Hle. rewrite Hle. cbn.
    split; [reflexivity | now trace_done].
  - intros b e Hpos -> Hle Hb. apply Z.leb_le in Hle. apply Z.leb_gt in Hpos.
    rewrite Hpos. cbn -[Z.mul]. rewrite Hle. cbn -[Z.mul]. rewrite Hb. cbn -[Z.mul].
    destruct (cls e); cbn; (split; [reflexivity | now trace_done]).
Qed.

Lemma vpn_contains_connector_faults_witness :
  (vpn_switch_timeout office + 10 <= 0 ->
   fst (_manage_vpn_connection office vpn_crash world0) = Return (Some false)
   /\ emitted (_manage_vpn_connection office vpn_crash) world0
      = [Call VPNConnectionManager_init; Log CRITICAL VpnTimeout])
  /\ (forall b e,
        0 < vpn_switch_timeout office + 10 ->
        vpn_connect vpn_crash = Completes b ->
        takes b <= (vpn_switch_timeout office + 10) * ticks_per_second ->
        gives b = Raise e ->
        if is_Exception (cls e)
        then fst (_manage_vpn_connection office vpn_crash world0) = Return (Some false)
             /\ emitted (_manage_vpn_connection office vpn_crash) world0
                = [Call VPNConnectionManager_init; Call connect_with_fallback;
                   Log CRITICAL (match cls e with
                                 | TimeoutError => VpnTimeout
                                 | _ => VpnUnexpected e
                                 end)]
        else fst (_manage_vpn_connection office vpn_crash world0) = Raise e
             /\ emitted (_manage_vpn_connection office vpn_crash) world0
                = [Call VPNConnectionManager_init; Call connect_with_fallback]).
Proof.
  apply (vpn_contains_connector_faults office vpn_crash world0). reflexivity.
Defined.

(** With a switch timeout of -10 the deadline is zero: the connector is never
    called, however fast it would have been. *)
Example vpn_zero_deadline :
  _manage_vpn_connection impatient smooth world0
  = (Return (Some false),
     after (emit (Call VPNConnectionManager_init) ;; logger CRITICAL VpnTimeout) world0).
Proof. reflexivity. Qed.

(** ** The extraction adapter *)

(** When [close] raises, its exception is what leaves [_extract_step]: the
    tuple that the scraping workflow returned is lost, and so is the
    exception that it raised. *)
Theorem extract_close_failure_wins (c : Collaborators) (w : World) (e : exn) :
  gives (scraper_init c) = Return tt ->
  gives (scraper_closes c) = Raise e ->
  fst (_extract_step c w) = Raise e.
Proof.
  intros Hinit Hclose.
  unfold _extract_step. py_unfold. cbn. rewrite Hinit. cbn.
  destruct (gives (scraper_execute c)); cbn; rewrite Hclose; reflexivity.
Qed.

Lemma extract_close_failure_wins_witness :
  fst (_extract_step stuck_browser world0)
  = Raise (mkExn OtherException "Target closed").
Proof.
  apply (extract_close_failure_wins stuck_browser world0). reflexivity. reflexivity.
Defined.

(** ** The file handler *)


(** On a machine where the downloads directory cannot be created the load
    stage fails before any file is read. *)
Example load_step_without_directory :
  _load_step smooth (Some report) sealed
  = (Return false,
     after (logger WARNING (DirNotFound downloads) ;; emit (Mkdir downloads) ;;
            logger ERROR (LoadCritical (os_error PermissionError "13" "Permission denied"
                                          downloads))) sealed).
Proof. vm_compute. reflexivity. Qed.

(** What [_find_most_recent_file] does with the entries that the pattern
    selects: it returns the path of one of them and changes nothing, or
    raises an exception derived from [Exception], after the error record
    when there is no entry. *)
Lemma find_given_glob (self : ExcelFileHandler) (w : World) (found : list File) :
  glob self w = (Return found, w) ->
  (exists p, _find_most_recent_file self w = (Return p, w))
  \/ (exists e,
        is_Exception (cls e) = true
        /\ (_find_most_recent_file self w = (Raise e, w)
            \/ _find_most_recent_file self w
               = (Raise e, after (logger ERROR (NoFileWithPrefix (prefix self))) w))).
Proof.
  intros Hglob. unfold _find_most_recent_file, bind, stat_st_mtime. rewrite Hglob.
  destruct found as [|f rest].
  - right. eexists. split; [|right; reflexivity]. reflexivity.
  - destruct (mtime f) as [t|]; cbn -[String.append].
    + destruct (max_by_mtime_runs rest f t w) as [[g Hg]|[e [He Hc]]]; rewrite ?Hg, ?He.
      * left. eexists. reflexivity.
      * right. exists e. auto.
    + right. eexists. split; [|left; reflexivity]. reflexivity.
Qed.

Lemma glob_runs (self : ExcelFileHandler) (w : World) :
  glob self w = (fst (glob self w), w).
Proof. unfold glob. destruct (plain (prefix self)); reflexivity. Qed.

Lemma glob_not_plain (self : ExcelFileHandler) (w : World) (o : outcome (list File)) :
  fst (glob self w) = o ->
  (forall found, o <> Return found) ->
  pathlib_glob w (directory self) (prefix self ++ "*") = o.
Proof.
  unfold glob. destruct (plain (prefix self)); cbn; intros <- H; [|reflexivity].
  now destruct (H (candidates self w)).
Qed.

(** Every way [_find_most_recent_file] can end: as above, or, for a pattern
    that is left to [pathlib], with what [pathlib] raised. *)
Lemma find_most_recent_file_cases (self : ExcelFileHandler) (w : World) :
  (exists p, _find_most_recent_file self w = (Return p, w))
  \/ (exists e,
        is_Exception (cls e) = true
        /\ (_find_most_recent_file self w = (Raise e, w)
            \/ _find_most_recent_file self w
               = (Raise e, after (logger ERROR (NoFileWithPrefix (prefix self))) w)))
  \/ (exists e,
        pathlib_glob w (directory self) (prefix self ++ "*") = Raise e
        /\ _find_most_recent_file self w = (Raise e, w))
  \/ (exists s,
        pathlib_glob w (directory self) (prefix self ++ "*") = Exit s
        /\ _find_most_recent_file self w = (Exit s, w)).
Proof.
  pose proof (glob_runs self w) as Hglob.
  destruct (fst (glob self w)) as [found|e|s] eqn:Ho.
  - destruct (find_given_glob self w found Hglob) as [H|H]; auto.
  - right. right. left. exists e. split.
    + apply (glob_not_plain self w _ Ho). discriminate.
    + unfold _find_most_recent_file, bind. now rewrite Hglob.
  - right. right. right. exists s. split.
    + apply (glob_not_plain self w _ Ho). discriminate.
    + unfold _find_most_recent_file, bind. now rewrite Hglob.
Qed.

(** What [process_most_recent_file] hands back is well formed, with or
    without a path and whatever the prefix: a success carries the data frame
    and the fixed message, a failure carries no data frame.  It hands back
    such a result unless [pd.read_excel], the pandas pipeline or the search
    of the directory ends with something that [except Exception] does not
    take; that then leaves the function through both of its [except]
    clauses, without any record of an error. *)
Theorem process_result_invariant (self : ExcelFileHandler) (c : Collaborators)
    (file_path : option Path) (w : World) :
  match fst (process_most_recent_file self c file_path w) with
  | Return r =>
      (success r = true ->
       message r = "Arquivo processado com sucesso" /\ exists df, dataframe r = Some df)
      /\ (success r = false -> dataframe r = None)
  | Raise e =>
      is_Exception (cls e) = false
      /\ (faults c (Thrown e)
          \/ pathlib_glob w (directory self) (prefix self ++ "*") = Raise e)
      /\ existsb is_error_record (emitted (process_most_recent_file self c file_path) w)
         = false
  | Exit s =>
      (faults c (Exited s)
       \/ pathlib_glob w (directory self) (prefix self ++ "*") = Exit s)
      /\ existsb is_error_record (emitted (process_most_recent_file self c file_path) w)
         = false
  end.
Proof.
  assert (Hsome : forall p,
            match fst (process_most_recent_file self c (Some p) w) with
            | Return r =>
                (success r = true ->
                 message r = "Arquivo processado com sucesso"
                 /\ exists df, dataframe r = Some df)
                /\ (success r = false -> dataframe r = None)
            | Raise e =>
                is_Exception (cls e) = false
                /\ (faults c (Thrown e)
                    \/ pathlib_glob w (directory self) (prefix self ++ "*") = Raise e)
                /\ existsb is_error_record
                     (emitted (process_most_recent_file self c (Some p)) w) = false
            | Exit s =>
                (faults c (Exited s)
                 \/ pathlib_glob w (directory self) (prefix self ++ "*") = Exit s)
                /\ existsb is_error_record
                     (emitted (process_most_recent_file self c (Some p)) w) = false
            end).
  { intros p. unfold emitted. handler_unfold. handler_paths.
    all: cbn -[String.append skipn]; trace_done.
    all: repeat split; try discriminate; eauto.
    all: first [assumption | left; blame]. }
  destruct file_path as [p|]; [apply Hsome|].
  destruct (find_most_recent_file_cases self w)
    as [[p Hp]|[(e & Hc & [He|He])|[(e & Ho & He)|(s & Ho & He)]]].
  - specialize (Hsome p).
    unfold emitted, after, process_most_recent_file, target_of, try_except, bind, ret in *.
    rewrite Hp. exact Hsome.
  - unfold emitted, after, process_most_recent_file, target_of, try_except, bind at 1.
    rewrite He, Hc. py_unfold. cbn -[String.append]. split; [discriminate | reflexivity].
  - unfold emitted, after, process_most_recent_file, target_of, try_except, bind at 1.
    rewrite He, Hc. py_unfold. cbn -[String.append]. split; [discriminate | reflexivity].
  - unfold emitted, after, process_most_recent_file, target_of, try_except, bind.
    rewrite !He. destruct (is_Exception (cls e)) eqn:Hc; py_unfold;
      cbn -[String.append skipn].
    + split; [discriminate | reflexivity].
    + split; [exact Hc|]. split; [now right|]. now rewrite skipn_all.
  - unfold emitted, after, process_most_recent_file, target_of, try_except, bind.
    rewrite !He. cbn -[String.append skipn].
    split; [now right|]. now rewrite skipn_all.
Qed.

(** With a path, the transform succeeds exactly when the file can be opened
    and [pd.read_excel] and the pandas pipeline both return, and then hands
    over what the pipeline made. *)
Theorem process_success_iff (self : ExcelFileHandler) (c : Collaborators) (p : Path)
    (w : World) (r : FileProcessingResult) :
  fst (process_most_recent_file self c (Some p) w) = Return r ->
  (success r = true
   <-> on_disk p w = true
       /\ exists df out,
            gives (read_excel c p) = Return df
            /\ gives (pandas_process c df) = Return out
            /\ dataframe r = Some out).
Proof.
  intros Hrun. split.
  - apply (process_success_inv self c p w r Hrun).
  - intros (Hdisk & df & out & Hr & Hp & _).
    destruct (process_succeeds self c p w df out Hdisk Hr Hp) as (w' & Heq & _).
    rewrite Heq in Hrun. cbn [fst] in Hrun. injection Hrun as <-. reflexivity.
Qed.

Lemma process_success_iff_witness :
  success (mkResult true "Arquivo processado com sucesso" (Some [["2025-11-03"; "4711"]]))
  = true
  <-> on_disk report desk = true
      /\ exists df out,
           gives (read_excel smooth report) = Return df
           /\ gives (pandas_process smooth df) = Return out
           /\ dataframe (mkResult true "Arquivo processado com sucesso"
                           (Some [["2025-11-03"; "4711"]])) = Some out.
Proof.
  apply (process_success_iff (mkHandler downloads PREFIX) smooth report desk).
  reflexivity.
Defined.

(** With a path, [delete_most_recent_file] returns [True] exactly when the
    file is there and the system lets it go; then no entry of that path is
    left and every other entry is kept.  When it returns [False] the files
    are as they were. *)
Theorem delete_removes_target (self : ExcelFileHandler) (p : Path) (w : World) :
  exists b w',
    delete_most_recent_file self (Some p) w = (Return b, w')
    /\ (b = true
        <-> exists f, find (fun f => Path_eqb (path f) p) (files w) = Some f
                      /\ locked f = false)
    /\ (b = true ->
        forall g, In g (files w') <-> In g (files w) /\ Path_eqb (path g) p = false)
    /\ (b = false -> files w' = files w).
Proof.
  handler_unfold. handler_paths.
  all: eexists _, _; split; [reflexivity|]; cbn [files].
  all: repeat split; try discriminate; try congruence; eauto.
  all: try (intros (f' & Hf' & Hl'); congruence).
  - match goal with Hg : In _ (filter _ _) |- _ => apply filter_In in Hg; tauto end.
  - match goal with
    | Hg : In _ (filter _ _) |- _ =>
        apply filter_In in Hg as [_ Hg]; now apply negb_true_iff in Hg
    end.
  - intros [Hg Hp]. apply filter_In. split; [assumption|]. now rewrite Hp.
Qed.

(** ** Looking for the most recent file *)

(** [_find_most_recent_file] works on what the pattern [prefix*] selects in
    the directory: for a prefix without metacharacters, the entries of the
    directory whose name starts with the prefix.  When nothing is selected
    it logs the error and raises [FileNotFoundError].  When [stat] finds
    every selected entry it changes nothing and returns the first of the
    newest ones: those listed before it are strictly older, those after it
    are not newer.  When [stat] does not find one of them, its
    [FileNotFoundError] leaves the function, without any record. *)
Theorem find_most_recent_file_spec (self : ExcelFileHandler) (w : World) :
  (plain (prefix self) = true -> fst (glob self w) = Return (candidates self w))
  /\ (fst (glob self w) = Return [] ->
      exists msg,
        _find_most_recent_file self w
        = (Raise (mkExn FileNotFoundError msg),
           after (logger ERROR (NoFileWithPrefix (prefix self))) w))
  /\ (forall found,
        fst (glob self w) = Return found -> found <> [] ->
        forallb has_mtime found = true ->
        exists before newest after_,
          (found = before ++ newest :: after_)%list
          /\ _find_most_recent_file self w = (Return (path newest), w)
          /\ (forall g, In g before -> modified g < modified newest)
          /\ (forall g, In g after_ -> modified g <= modified newest))
  /\ (forall found,
        fst (glob self w) = Return found ->
        forallb has_mtime found = false ->
        exists msg,
          _find_most_recent_file self w = (Raise (mkExn FileNotFoundError msg), w)).
Proof.
  pose proof (glob_runs self w) as Hglob.
  split; [|split; [|split]].
  - intros Hplain. unfold glob. now rewrite Hplain.
  - intros Hnone. rewrite Hnone in Hglob.
    unfold _find_most_recent_file, bind at 1. rewrite Hglob. eexists. reflexivity.
  - intros found Hfound Hne Hall.
    destruct (find_most_recent_file_newest self w found Hfound Hne Hall)
      as (before & newest & after_ & Hrun & Heq & _ & Hb & Ha).
    exists before, newest, after_. auto.
  - intros found Hfound Hall.
    exact (find_most_recent_file_unfound self w found Hfound Hall).
Qed.

(** On [haunted] the link between the two reports stops the search. *)
Example find_with_dangling_link :
  _find_most_recent_file (mkHandler downloads PREFIX) haunted
  = (Raise (os_error FileNotFoundError "2" "No such file or directory"
              (str_path (path ghost))), haunted)
  /\ fst (_find_most_recent_file (mkHandler downloads PREFIX) shelf) = Return report.
Proof. split; vm_compute; reflexivity. Qed.

(** ** The load stage, again *)

Lemma forallb_weaken {A} (p q : A -> bool) (l : list A) :
  (forall x, p x = true -> q x = true) ->
  forallb p l = true -> forallb q l = true.
Proof.
  intros Hpq. rewrite !forallb_forall. auto.
Qed.

(** Splits an event into its constructors, as far as the predicates on
    events look. *)
Ltac event_cases ev :=
  destruct ev as [[] []|[]| | |]; cbn; try reflexivity; try discriminate.

Lemma transform_in_load_stage (ev : event) :
  is_transform ev = true -> in_stage LoadStage ev = true.
Proof. event_cases ev. Qed.

Lemma removal_in_load_stage (ev : event) :
  is_removal ev = true -> in_stage LoadStage ev = true.
Proof. event_cases ev. Qed.

Ltac count_zero q :=
  repeat match goal with
         | H : forallb is_transform ?t = true |- context [count q ?t] =>
             rewrite (forallb_count_zero is_transform q t)
               by (first [ assumption | intros ev; event_cases ev ])
         | H : forallb is_removal ?t = true |- context [count q ?t] =>
             rewrite (forallb_count_zero is_removal q t)
               by (first [ assumption | intros ev; event_cases ev ])
         end.

(** The database connection is scoped: [_load_step] opens it at most once,
    and closes it exactly once whenever it was opened, whatever happens in
    between; when opening fails there is nothing to close. *)
Theorem load_step_releases_connection (c : Collaborators) (file_path : option Path)
    (w : World) :
  (count is_db_enter (emitted (_load_step c file_path) w) <= 1)%nat
  /\ count is_db_exit (emitted (_load_step c file_path) w)
     = match gives (db_enter c) with
       | Return _ => count is_db_enter (emitted (_load_step c file_path) w)
       | _ => 0%nat
       end.
Proof.
  load_walk.
  all: count_norm; count_zero is_db_enter; count_zero is_db_exit.
  all: cbn; split; try lia; try reflexivity.
  all: destruct (gives (db_enter c)); reflexivity.
Qed.

Lemma on_disk_files (p : Path) (w w' : World) :
  files w' = files w -> on_disk p w' = on_disk p w.
Proof. unfold on_disk. now intros ->. Qed.

(** [_load_step] returns [True] exactly when the handler could be
    constructed, the file could be opened, the transform succeeded, the
    connection was opened, the table was there or could be created, the bulk
    insert returned and the connection was released without an exception.
    Whether the artifact could be removed plays no part. *)
Theorem load_step_true_iff (c : Collaborators) (p : Path) (w : World) :
  fst (_load_step c (Some p) w) = Return true
  <-> (path_exists (user_downloads_dir c) w || can_create (user_downloads_dir c) w)%bool
      = true
      /\ on_disk p w = true
      /\ (exists df out,
            gives (read_excel c p) = Return df /\ gives (pandas_process c df) = Return out)
      /\ gives (db_enter c) = Return tt
      /\ (gives (db_table_exists c) = Return true
          \/ gives (db_table_exists c) = Return false
             /\ gives (db_create_table c) = Return tt)
      /\ gives (db_bulk_insert c) = Return tt
      /\ gives (db_exit c) = Return tt.
Proof.
  load_walk.
  all: cbn [fst].
  all: split;
    [ intros H; try discriminate H
    | intros (Hd & Hdisk & (df & out & Hr & Hp) & He & Ht & Hi & Hx) ].
  all: try congruence.
  all: try (destruct Ht as [Ht|[Ht Hc']]; congruence).
  all: try match goal with
           | Hproc : process_most_recent_file ?h _ (Some ?q) ?w1 = _,
             Hf : files ?w1 = files _ |- _ =>
               rewrite <- (on_disk_files q _ w1 Hf) in Hdisk;
               let w' := fresh "w'" in let Heq := fresh "Heq" in
               destruct (process_succeeds h c q w1 df out Hdisk Hr Hp) as (w' & Heq & _);
               rewrite Heq in Hproc; try discriminate Hproc;
               injection Hproc as Hres _; subst; cbn in *; congruence
           end.
  all: match goal with
       | Hproc : process_most_recent_file ?h _ (Some ?q) ?w1 = (Return ?r, _),
         Hs : success ?r = true, Hf : files ?w1 = files _ |- _ =>
           destruct (process_success_inv h c q w1 r (f_equal fst Hproc) Hs)
             as (Hdisk & df & out & Hr & Hp & _);
           rewrite (on_disk_files q _ w1 Hf) in Hdisk
       end.
  all: split; [assumption|]; split; [assumption|].
  all: split; [exists df, out; split; assumption|]; auto 10.
Qed.

(** An exception while the connection is released comes after the [return
    True] of the [with] block: the stage then reports [False], although the
    rows were inserted and the removal of the artifact was attempted. *)
Theorem load_step_release_failure (c : Collaborators) (p : Path) (w : World)
    (df out : DataFrame) (e : exn) :
  (path_exists (user_downloads_dir c) w || can_create (user_downloads_dir c) w)%bool = true ->
  on_disk p w = true ->
  gives (read_excel c p) = Return df ->
  gives (pandas_process c df) = Return out ->
  gives (db_enter c) = Return tt ->
  gives (db_table_exists c) = Return true ->
  gives (db_bulk_insert c) = Return tt ->
  gives (db_exit c) = Raise e ->
  is_Exception (cls e) = true ->
  fst (_load_step c (Some p) w) = Return false
  /\ phases (emitted (_load_step c (Some p)) w) = [Insertion; Deletion]
  /\ last (emitted (_load_step c (Some p)) w) (Log ERROR (LoadCritical e))
     = Log ERROR (LoadCritical e).
Proof.
  intros Hdir Hdisk Hr Hp He Ht Hi Hx Hc.
  load_walk.
  all: try congruence.
  all: try match goal with
           | Hproc : process_most_recent_file ?h _ (Some ?q) ?w1 = _,
             Hf : files ?w1 = files _ |- _ =>
               rewrite <- (on_disk_files q _ w1 Hf) in Hdisk;
               let w' := fresh "w'" in let Heq := fresh "Heq" in
               destruct (process_succeeds h c q w1 df out Hdisk Hr Hp) as (w' & Heq & _);
               rewrite Heq in Hproc; try discriminate Hproc;
               injection Hproc as Hres _; subst; cbn in *; congruence
           end.
  all: transform_facts.
  all: cbn [fst]; split; [reflexivity|]; split.
  all: try (last_norm; congruence).
  all: phases_norm.
  all: rewrite Hgiven by discriminate; reflexivity.
Qed.

Lemma load_step_release_failure_witness :
  fst (_load_step lost_connection (Some report) desk) = Return false
  /\ phases (emitted (_load_step lost_connection (Some report)) desk)
     = [Insertion; Deletion]
  /\ last (emitted (_load_step lost_connection (Some report)) desk)
       (Log ERROR (LoadCritical (mkExn OtherException "connection already closed")))
     = Log ERROR (LoadCritical (mkExn OtherException "connection already closed")).
Proof.
  apply (load_step_release_failure lost_connection report desk
           [["2025-11-03"; "4711"]] [["2025-11-03"; "4711"]]
           (mkExn OtherException "connection already closed")); reflexivity.
Defined.

(** When what is raised while the connection is released does not derive
    from [Exception], it is not turned into [False]: it leaves the stage. *)
Example load_step_cancelled_release :
  fst (_load_step cancelled_release (Some report) desk) = Raise (mkExn CancelledError "")
  /\ phases (emitted (_load_step cancelled_release (Some report)) desk)
     = [Insertion; Deletion].
Proof. vm_compute. split; reflexivity. Qed.
(** ** The stages of an attempt *)

Lemma in_order_weaken (a b : nat) (t : list event) :
  (a <= b)%nat -> in_order b t = true -> in_order a t = true.
Proof.
  destruct t as [|ev t]; [reflexivity|]. cbn [in_order]. intros Hab H.
  apply andb_prop in H as [Hb Ht]. apply Nat.leb_le in Hb.
  rewrite Ht, andb_true_r. apply Nat.leb_le. lia.
Qed.

(** A run of events of one stage, followed by events of that stage or of
    later ones. *)
Lemma in_order_block (s : stage) (a : nat) (t1 t2 : list event) :
  (a <= rank s)%nat ->
  forallb (in_stage s) t1 = true ->
  in_order (rank s) t2 = true ->
  in_order a (t1 ++ t2) = true.
Proof.
  revert a. induction t1 as [|ev t1 IH]; intros a Ha H1 H2.
  - now apply in_order_weaken with (b := rank s).
  - cbn [forallb] in H1. apply andb_prop in H1 as [Hev H1].
    unfold in_stage in Hev. apply Nat.eqb_eq in Hev.
    cbn [app in_order]. rewrite Hev.
    rewrite (IH (rank s)) by auto. rewrite andb_true_r. now apply Nat.leb_le.
Qed.

Lemma stage_count_zero (s : stage) (q : event -> bool) (t : list event) :
  (forall ev, q ev = true -> in_stage s ev = false) ->
  forallb (in_stage s) t = true -> count q t = 0%nat.
Proof.
  intros Hq. apply forallb_count_zero.
  intros ev Hs. destruct (q ev) eqn:Hqe; [|reflexivity].
  rewrite (Hq ev Hqe) in Hs. discriminate.
Qed.

Lemma stage_existsb_false (s s' : stage) (t : list event) :
  rank s <> rank s' ->
  forallb (in_stage s) t = true -> existsb (in_stage s') t = false.
Proof.
  intros Hne. apply forallb_existsb_false.
  intros ev Hs. unfold in_stage in *. apply Nat.eqb_eq in Hs.
  apply Nat.eqb_neq. congruence.
Qed.

Lemma sleep_is_finish (ev : event) : is_sleep ev = true -> stage_of ev = Finish.
Proof. destruct ev; cbn; congruence. Qed.

Lemma attempt_start_is_start (ev : event) : is_attempt_start ev = true -> stage_of ev = Start.
Proof. destruct ev as [[] []| | | |]; cbn; congruence. Qed.

(** The VPN adapter leaves only events of its stage; it hands back a truthy
    value only when the connector came back in time with a true status; and
    what leaves it otherwise is a value, an exception derived from
    [Exception], or a fault of a collaborator that escapes. *)
Lemma manage_vpn_connection_events (self : MainOrchestrator) (c : Collaborators)
    (w : World) :
  exists o w' t,
    _manage_vpn_connection self c w = (o, w')
    /\ trace w' = (trace w ++ t)%list
    /\ forallb (in_stage VpnStage) t = true
    /\ (connected_ok o = true -> vpn_came_up self c)
    /\ ((exists v, o = Return v)
        \/ (exists e, o = Raise e /\ is_Exception (cls e) = true)
        \/ escaped c o).
Proof.
  unfold vpn_came_up, _manage_vpn_connection, wait_for_to_thread. py_unfold.
  destruct (gives (vpn_init c)) as [[]|e0|s0] eqn:Hinit; cbn -[String.append Z.mul].
  2: destruct (is_Exception (cls e0)) eqn:Hc0.
  2, 3, 4: eexists _, _, _; split; [reflexivity|]; split; [trace_ext|];
    (split; [reflexivity|]); (split; [discriminate|]); ended.
  destruct (vpn_switch_timeout self + 10 <=? 0) eqn:Hpos; cbn -[String.append Z.mul].
  { eexists _, _, _; split; [reflexivity|]; split; [trace_ext|].
    split; [reflexivity|]. split; [discriminate|]. ended. }
  apply Z.leb_gt in Hpos.
  destruct (vpn_connect c) as [b|] eqn:Hconn; cbn -[String.append Z.mul].
  2: { eexists _, _, _; split; [reflexivity|]; split; [trace_ext|].
       split; [reflexivity|]. split; [discriminate|]. ended. }
  destruct (takes b <=? (vpn_switch_timeout self + 10) * ticks_per_second) eqn:Hle;
    cbn -[String.append Z.mul].
  2: { eexists _, _, _; split; [reflexivity|]; split; [trace_ext|].
       split; [reflexivity|]. split; [discriminate|]. ended. }
  apply Z.leb_le in Hle.
  destruct (gives b) as [[[] msg]|e|s] eqn:Hb; cbn -[String.append Z.mul].
  - eexists _, _, _; split; [reflexivity|]; split; [trace_ext|].
    split; [reflexivity|]. split; [|ended].
    intros _. split; [reflexivity|]. split; [assumption|]. eexists _, _. eauto.
  - eexists _, _, _; split; [reflexivity|]; split; [trace_ext|].
    split; [reflexivity|]. split; [discriminate|]. ended.
  - destruct (is_Exception (cls e)) eqn:Hc.
    + destruct (cls e); try discriminate Hc; cbn -[String.append Z.mul].
      all: eexists _, _, _; split; [reflexivity|]; split; [trace_ext|].
      all: split; [reflexivity|]; split; [discriminate|]; ended.
    + cbn -[String.append Z.mul].
      eexists _, _, _; split; [reflexivity|]; split; [trace_ext|].
      split; [reflexivity|]. split; [discriminate|].
      right. right. cbn [escaped]. split; [assumption|].
      apply (fault_vpn_connect c (Thrown e) b Hconn). exact Hb.
  - eexists _, _, _; split; [reflexivity|]; split; [trace_ext|].
    split; [reflexivity|]. split; [discriminate|].
    right. right. cbn [escaped]. apply (fault_vpn_connect c (Exited s) b Hconn). exact Hb.
Qed.

(** The extraction adapter leaves only events of its stage; what it returns
    is what the scraping workflow returned. *)
Lemma extract_step_events (c : Collaborators) (w : World) :
  exists o w' t,
    _extract_step c w = (o, w')
    /\ trace w' = (trace w ++ t)%list
    /\ forallb (in_stage ExtractStage) t = true
    /\ (forall r, o = Return r -> gives (scraper_execute c) = Return r)
    /\ ((exists r, o = Return r)
        \/ (exists e, o = Raise e /\ is_Exception (cls e) = true)
        \/ escaped c o).
Proof.
  unfold _extract_step. py_unfold.
  repeat (cbn; py_case); cbn.
  all: eexists _, _, _; split; [reflexivity|]; split; [trace_ext|].
  all: split; [reflexivity|]; split; [intros r Hr; congruence|].
  all: match goal with
       | |- _ \/ (exists e, Raise ?x = Raise e /\ _) \/ _ =>
           destruct (is_Exception (cls x)) eqn:?
       | _ => idtac
       end.
  all: ended.
Qed.

(** The load stage leaves only events of its own. *)
Lemma load_step_events (c : Collaborators) (file_path : option Path) (w : World) :
  exists o w' t,
    _load_step c file_path w = (o, w')
    /\ trace w' = (trace w ++ t)%list
    /\ forallb (in_stage LoadStage) t = true
    /\ ((exists b, o = Return b) \/ escaped c o).
Proof.
  load_walk.
  all: repeat match goal with
              | H : forallb is_transform _ = true |- _ =>
                  apply (forallb_weaken _ _ _ transform_in_load_stage) in H
              | H : forallb is_removal _ = true |- _ =>
                  apply (forallb_weaken _ _ _ removal_in_load_stage) in H
              end.
  all: eexists _, _, _; split; [reflexivity|]; cbn [trace].
  all: repeat match goal with H : trace ?x = _ |- _ => rewrite H; clear H end.
  all: rewrite <- ?app_assoc; cbn [app].
  all: split; [reflexivity|].
  all: split;
    [ repeat (rewrite forallb_app || cbn [forallb]);
      repeat match goal with H : forallb _ ?t = true |- _ => rewrite H; clear H end;
      reflexivity
    | ].
  all: first [ left; eexists; reflexivity
             | right; cbn [escaped];
               first [ split; [assumption || reflexivity | assumption || blame]
                     | assumption | blame ] ].
Qed.

Ltac stage_facts :=
  repeat match goal with
         | H : forallb (in_stage ?s) ?t = true |- _ =>
             lazymatch goal with
             | _ : count is_sleep t = 0%nat |- _ => fail
             | _ =>
                 assert (count is_sleep t = 0%nat)
                   by (apply (stage_count_zero s); [|exact H];
                       intros ev Hev; unfold in_stage;
                       rewrite (sleep_is_finish ev Hev); reflexivity);
                 assert (count is_attempt_start t = 0%nat)
                   by (apply (stage_count_zero s); [|exact H];
                       intros ev Hev; unfold in_stage;
                       rewrite (attempt_start_is_start ev Hev); reflexivity)
             end
         end.

Ltac order_blocks :=
  cbn [in_order stage_of rank Nat.leb andb];
  repeat match goal with
         | H : forallb (in_stage ?s) ?t = true |- in_order _ (?t ++ _) = true =>
             apply (in_order_block s); [cbn; lia | exact H | ]
         | H : forallb (in_stage ?s) ?t = true |- in_order _ ?t = true =>
             rewrite <- (app_nil_r t);
             apply (in_order_block s); [cbn; lia | exact H | reflexivity]
         end;
  try reflexivity.

Ltac stage_existsb s' :=
  repeat (rewrite existsb_app || cbn [existsb]);
  repeat match goal with
         | H : forallb (in_stage ?s) ?t = true |- context [existsb (in_stage s') ?t] =>
             first [ rewrite (stage_existsb_false s s' t) by (first [discriminate | exact H])
                   | fail 1 ]
         end.

(** Closes one way through [attempt_body], given what the stages that ran
    have left. *)
Ltac attempt_leaf Hup :=
  stage_facts;
  eexists _, _, _; split; [reflexivity|]; cbn [trace];
  repeat match goal with H : trace ?x = _ |- _ => rewrite H end;
  rewrite <- ?app_assoc; cbn [app];
  split; [reflexivity|];
  split; [ first [ left; reflexivity
                 | right; left; reflexivity
                 | right; right; cbn [escaped] in *; tauto ] |];
  split; [order_blocks|];
  split; [count_norm; cbn; lia|];
  split; [count_norm; cbn; lia|];
  split; [intros Hne; first [now destruct Hne | count_norm; cbn; lia]|];
  split;
  [ first [ solve [intros _; exact (Hup eq_refl)]
          | stage_existsb ExtractStage; cbn; discriminate ]
  | first [ solve [intros _; eauto]
          | stage_existsb LoadStage; cbn; discriminate ] ].

(** The [except] clause of the attempt: a warning, and the wait when the
    guard holds. *)
Ltac attempt_handler Hup :=
  cbn [cls is_Exception]; cbv beta iota;
  match goal with
  | |- context [(?a <=? ?b)%nat] => destruct (a <=? b)%nat
  end;
  cbv beta iota; attempt_leaf Hup.

(** Every attempt, whatever the collaborators do. *)
Lemma attempt_body_runs (self : MainOrchestrator) (c : Collaborators) (start_time : Z)
    (attempt : nat) (w : World) :
  exists o w' t,
    attempt_body self c start_time attempt w = (o, w')
    /\ trace w' = (trace w ++ t)%list
    /\ (o = Return tt \/ o = Exit 0 \/ escaped c o)
    /\ in_order 0 t = true
    /\ count is_attempt_start t = 1%nat
    /\ (count is_sleep t <= 1)%nat
    /\ (o <> Return tt -> count is_sleep t = 0%nat)
    /\ (existsb (in_stage ExtractStage) t = true -> vpn_came_up self c)
    /\ (existsb (in_stage LoadStage) t = true ->
        exists p, gives (scraper_execute c) = Return (true, Some p)).
Proof.
  unfold attempt_body, try_except, bind, logger, emit, raise, ret, asyncio_sleep, advance,
    perf_counter, sys_exit.
  cbv beta iota.
  match goal with
  | |- context [_manage_vpn_connection self c ?w0] =>
      destruct (manage_vpn_connection_events self c w0)
        as (o & w1 & tv & Hvpn & Htv & Hqv & Hup & Hov)
  end.
  rewrite Hvpn. cbn [trace] in Htv.
  destruct Hov as [[v ->]|[(e & -> & Hc)|Hesc]].
  - (* the adapter returned *)
    cbn [connected_ok] in Hup.
    destruct (truthy v) eqn:Hv; cbn [negb]; cbv beta iota.
    + destruct (extract_step_events c w1) as (oe & w2 & te & Hext & Hte & Hqe & Hres & Hoe).
      rewrite Hext.
      destruct Hoe as [[[success_ext file_path] ->]|[(e & -> & Hc)|Hesc]].
      * (* the scraper returned a tuple *)
        specialize (Hres _ eq_refl).
        destruct success_ext, file_path as [p|]; cbn [negb is_none orb]; cbv beta iota.
        -- destruct (load_step_events c (Some p) w2) as (ol & w3 & tl & Hload & Htl & Hql & Hol).
           rewrite Hload.
           destruct Hol as [[b ->]|Hesc].
           ++ destruct b; cbv beta iota; attempt_leaf Hup.
           ++ destruct ol as [b|e|s]; cbn [escaped] in Hesc;
                [destruct Hesc | destruct Hesc as [Hc Hf]; rewrite Hc | ];
                cbv beta iota; attempt_leaf Hup.
        -- attempt_handler Hup.
        -- attempt_handler Hup.
        -- attempt_handler Hup.
      * (* the scraper, or the closing of its session, raised *)
        rewrite Hc. attempt_handler Hup.
      * destruct oe as [r|e|s]; cbn [escaped] in Hesc;
          [destruct Hesc | destruct Hesc as [Hc Hf]; rewrite Hc | ];
          cbv beta iota; attempt_leaf Hup.
    + (* a falsy value: [ConnectionError] *)
      attempt_handler Hup.
  - (* the constructor of the manager, or the connector, raised *)
    rewrite Hc. attempt_handler Hup.
  - destruct o as [r|e|s]; cbn [escaped] in Hesc;
      [destruct Hesc | destruct Hesc as [Hc Hf]; rewrite Hc | ];
      cbv beta iota; attempt_leaf Hup.
Qed.

(** ** Every run *)

Lemma for_each_runs (self : MainOrchestrator) (world : nat -> Collaborators)
    (start_time : Z) (l : list nat) (w : World) :
  exists o w' t,
    for_each l (fun attempt => attempt_body self (world attempt) start_time attempt) w
    = (o, w')
    /\ trace w' = (trace w ++ t)%list
    /\ (o = Return tt \/ o = Exit 0 \/ exists k, In k l /\ escaped (world k) o)
    /\ (count is_attempt_start t <= List.length l)%nat
    /\ (o = Return tt -> count is_attempt_start t = List.length l)
    /\ (count is_sleep t <= count is_attempt_start t)%nat
    /\ (o <> Return tt -> (count is_sleep t < count is_attempt_start t)%nat).
Proof.
  revert w. induction l as [|k l IH]; intros w.
  - exists (Return tt), w, []. cbn. rewrite app_nil_r.
    repeat split; auto. intros H. now destruct H.
  - destruct (attempt_body_runs self (world k) start_time k w)
      as (o1 & w1 & t1 & H1 & Ht1 & Ho1 & _ & Hs1 & Hz1 & Hx1 & _).
    cbn [for_each]. unfold bind at 1. rewrite H1.
    destruct Ho1 as [-> | Ho1].
    + destruct (IH w1) as (o & w' & t & H & Ht & Ho & Hle & Hall & Hz & Hx).
      exists o, w', (t1 ++ t)%list. rewrite H, Ht, Ht1, app_assoc, !count_app.
      cbn [List.length].
      split; [reflexivity|]. split; [reflexivity|].
      split; [|split; [lia|split; [|split; [lia|]]]].
      * destruct Ho as [Ho|[Ho|(k' & Hk' & Ho)]]; auto.
        right. right. exists k'. split; [now right | assumption].
      * intros Hr. specialize (Hall Hr). lia.
      * intros He. specialize (Hx He). lia.
    + assert (Hne : o1 <> Return tt).
      { destruct Ho1 as [-> | Ho1]; [discriminate|].
        destruct o1; [destruct Ho1 | discriminate | discriminate]. }
      specialize (Hx1 Hne).
      assert (Hrun : (let (o, w') := (o1, w1) in
                      match o with
                      | Return a =>
                          for_each l
                            (fun attempt =>
                               attempt_body self (world attempt) start_time attempt) w'
                      | Raise e => (Raise e, w')
                      | Exit s => (Exit s, w')
                      end)
                     = (match o1 with
                        | Return _ => Return tt
                        | Raise e => Raise e
                        | Exit s => Exit s
                        end, w1)).
      { destruct o1 as [[]|e|s]; [now destruct Hne | reflexivity | reflexivity]. }
      rewrite Hrun.
      assert (Hsame : match o1 with
                      | Return _ => Return tt
                      | Raise e => Raise e
                      | Exit s => Exit s
                      end = o1)
        by (destruct o1 as [[]|e|s]; reflexivity).
      rewrite Hsame.
      exists o1, w1, t1. cbn [List.length].
      split; [reflexivity|]. split; [exact Ht1|].
      split; [|split; [lia|split; [intros H; now destruct (Hne H)|split; lia]]].
      destruct Ho1 as [Ho1|Ho1]; auto.
      right. right. exists k. split; [now left | assumption].
Qed.

Lemma run_pipeline_runs (self : MainOrchestrator) (world : nat -> Collaborators)
    (w : World) :
  exists o w' t,
    run_pipeline self world w = (o, w')
    /\ trace w' = (trace w ++ t)%list
    /\ (o = Exit 0 \/ o = Exit 1
        \/ exists k, (1 <= k <= max_retries self)%nat /\ escaped (world k) o)
    /\ (count is_attempt_start t <= max_retries self)%nat
    /\ (o = Exit 1 ->
        count is_attempt_start t = max_retries self
        \/ exists k, (1 <= k <= max_retries self)%nat /\ faults (world k) (Exited 1))
    /\ (count is_sleep t <= count is_attempt_start t)%nat
    /\ (o = Exit 0 -> (count is_sleep t < count is_attempt_start t)%nat).
Proof.
  destruct (for_each_runs self world (clock w) (seq 1 (max_retries self)) w)
    as (o & w' & t & H & Ht & Ho & Hle & Hall & Hz & Hx).
  rewrite length_seq in Hle, Hall.
  unfold run_pipeline, bind at 1, perf_counter. unfold bind at 1. rewrite H.
  destruct Ho as [-> | Ho].
  - exists (Exit 1), (after (logger CRITICAL DefinitiveFailure) w'),
      (t ++ [Log CRITICAL DefinitiveFailure])%list.
    split; [reflexivity|]. unfold after, logger, emit. cbn [snd trace].
    rewrite Ht, app_assoc, !count_app. cbn.
    specialize (Hall eq_refl). repeat split; auto; try lia. discriminate.
  - assert (Hne : o <> Return tt).
    { destruct Ho as [-> | (k & _ & Ho)]; [discriminate|].
      destruct o; [destruct Ho | discriminate | discriminate]. }
    specialize (Hx Hne).
    assert (Hesc : o = Exit 0
                   \/ exists k, (1 <= k <= max_retries self)%nat /\ escaped (world k) o).
    { destruct Ho as [Ho | (k & Hk & Ho)]; [now left|].
      right. exists k. split; [|assumption]. apply in_seq in Hk. lia. }
    destruct o as [[]|e|s]; [now destruct Hne | |].
    + exists (Raise e), w', t.
      split; [reflexivity|]. split; [assumption|].
      split; [destruct Hesc as [Hesc|Hesc]; [discriminate | auto]|].
      repeat split; auto; try lia; discriminate.
    + exists (Exit s), w', t.
      split; [reflexivity|]. split; [assumption|].
      split; [destruct Hesc as [Hesc|Hesc]; auto|].
      split; [lia|]. split; [|split; [lia|intros _; lia]].
      intros Hs. injection Hs as ->.
      destruct Hesc as [Hesc | (k & Hk & Hesc)]; [discriminate|].
      right. exists k. auto.
Qed.

(** [run_pipeline] never returns.  It ends in its own [sys.exit], with
    status 0 or 1, unless during some attempt a collaborator ends with
    something that no [except Exception] clause takes: an exception that
    does not derive from [Exception], which then leaves the coroutine, or a
    [SystemExit] of its own, whose status is then the status of the run.
    With collaborators that fail only with exceptions derived from
    [Exception] the status is 0 or 1. *)
Theorem run_pipeline_exit_status (self : MainOrchestrator) (world : nat -> Collaborators)
    (w : World) :
  (forall u, fst (run_pipeline self world w) <> Return u)
  /\ (fst (run_pipeline self world w) = Exit 0
      \/ fst (run_pipeline self world w) = Exit 1
      \/ exists k, (1 <= k <= max_retries self)%nat
                   /\ escaped (world k) (fst (run_pipeline self world w)))
  /\ ((forall k, (1 <= k <= max_retries self)%nat -> tame (world k)) ->
      fst (run_pipeline self world w) = Exit 0
      \/ fst (run_pipeline self world w) = Exit 1).
Proof.
  destruct (run_pipeline_runs self world w) as (o & w' & t & H & _ & Ho & _).
  rewrite H. cbn [fst].
  split; [|split; [exact Ho|]].
  - intros u Hu. subst o.
    destruct Ho as [Ho|[Ho|(k & _ & Ho)]]; [discriminate | discriminate | destruct Ho].
  - intros Htame.
    destruct Ho as [Ho|[Ho|(k & Hk & Ho)]]; auto.
    exfalso. specialize (Htame k Hk).
    destruct o as [u|e|s]; cbn [escaped] in Ho.
    + destruct Ho.
    + destruct Ho as [Hc Hf]. specialize (Htame _ Hf). cbn in Htame. congruence.
    + exact (Htame _ Ho).
Qed.

(** A scraping workflow that leaves through [sys.exit(3)] ends the run with
    status 3 on the first attempt; one that is cancelled lets
    [CancelledError] out of the coroutine.  Neither is logged as a failed
    attempt, and no retry follows. *)
Example run_pipeline_escapes :
  fst (run_pipeline office (fun _ => scraper_quits) desk) = Exit 3
  /\ count is_attempt_start (emitted (run_pipeline office (fun _ => scraper_quits)) desk)
     = 1%nat
  /\ fst (run_pipeline office (fun _ => scraper_cancelled) desk)
     = Raise (mkExn CancelledError "")
  /\ count is_sleep (emitted (run_pipeline office (fun _ => scraper_cancelled)) desk)
     = 0%nat.
Proof. vm_compute. repeat split. Qed.

(** A scraping workflow that leaves through [sys.exit(1)] ends the run with
    status 1 after a single attempt; an interrupt of the VPN routine leaves
    the run at once, although the VPN stage has not connected. *)
Example run_pipeline_ended_by_a_collaborator :
  fst (run_pipeline office (fun _ => scraper_gives_up) desk) = Exit 1
  /\ count is_attempt_start (emitted (run_pipeline office (fun _ => scraper_gives_up)) desk)
     = 1%nat
  /\ connected_ok (fst (_manage_vpn_connection office vpn_interrupted desk)) = false
  /\ fst (run_pipeline office (fun _ => vpn_interrupted) desk)
     = Raise (mkExn KeyboardInterrupt "").
Proof. vm_compute. repeat split. Qed.

(** A run makes at most [max_retries] attempts.  When it ends with status 1
    it has made all of them, unless the status is that of a [SystemExit] of
    a collaborator.  It never waits more often than it has started attempts,
    and a run that ends with status 0 has waited less often than that: the
    attempt that succeeds does not wait. *)
Theorem run_pipeline_attempts (self : MainOrchestrator) (world : nat -> Collaborators)
    (w : World) :
  (count is_attempt_start (emitted (run_pipeline self world) w) <= max_retries self)%nat
  /\ (fst (run_pipeline self world w) = Exit 1 ->
      count is_attempt_start (emitted (run_pipeline self world) w) = max_retries self
      \/ exists k, (1 <= k <= max_retries self)%nat /\ faults (world k) (Exited 1))
  /\ (count is_sleep (emitted (run_pipeline self world) w)
      <= count is_attempt_start (emitted (run_pipeline self world) w))%nat
  /\ (fst (run_pipeline self world w) = Exit 0 ->
      (count is_sleep (emitted (run_pipeline self world) w)
       < count is_attempt_start (emitted (run_pipeline self world) w))%nat).
Proof.
  destruct (run_pipeline_runs self world w) as (o & w' & t & H & Ht & _ & Hle & Hall & Hz & Hx).
  rewrite (emitted_extends (run_pipeline self world) w t)
    by (unfold after; rewrite H; exact Ht).
  rewrite H. auto.
Qed.

(** Within an attempt the stages follow one another in the order of the
    pipeline: the two records of the head of the loop, then the events of
    the VPN stage, then those of the extraction, then those of the load
    stage, then the end of the attempt.  No stage is entered twice. *)
Theorem attempt_stages_in_order (self : MainOrchestrator) (c : Collaborators)
    (start_time : Z) (attempt : nat) (w : World) :
  in_order 0 (emitted (attempt_body self c start_time attempt) w) = true.
Proof.
  destruct (attempt_body_runs self c start_time attempt w)
    as (o & w' & t & H & Ht & _ & Hord & _).
  rewrite (emitted_extends _ w t) by (unfold after; rewrite H; exact Ht).
  exact Hord.
Qed.

(** A stage is started only when the one before it delivered: the scraper
    only after the VPN routine came back in time with a true status, the
    load stage only after the scraper returned success together with a file. *)
Theorem attempt_stages_gated (self : MainOrchestrator) (c : Collaborators)
    (start_time : Z) (attempt : nat) (w : World) :
  (existsb (in_stage ExtractStage) (emitted (attempt_body self c start_time attempt) w)
   = true -> vpn_came_up self c)
  /\ (existsb (in_stage LoadStage) (emitted (attempt_body self c start_time attempt) w)
      = true -> exists p, gives (scraper_execute c) = Return (true, Some p)).
Proof.
  destruct (attempt_body_runs self c start_time attempt w)
    as (o & w' & t & H & Ht & _ & _ & _ & _ & _ & Hext & Hload).
  rewrite (emitted_extends _ w t) by (unfold after; rewrite H; exact Ht).
  auto.
Qed.

Lemma bad_sheet_is_tame : tame bad_sheet.
Proof.
  intros f H.
  destruct H as [H|b Hb H|H|H|H|p H|df H|H|H|H|H|H]; destruct f; cbn in H;
    try discriminate H.
  - injection Hb as <-. discriminate H.
  - injection Hb as <-. discriminate H.
  - injection H as <-. reflexivity.
Qed.

(** With a spreadsheet that cannot be read, an exception derived from
    [Exception], the run ends in one of its own exits. *)
Lemma run_pipeline_exit_status_witness :
  fst (run_pipeline office (fun _ => bad_sheet) desk) = Exit 0
  \/ fst (run_pipeline office (fun _ => bad_sheet) desk) = Exit 1.
Proof.
  destruct (run_pipeline_exit_status office (fun _ => bad_sheet) desk) as (_ & _ & H).
  apply H. intros k _. exact bad_sheet_is_tame.
Defined.
